(** * jet: the replicated state machine and the membership reconciler

    A shallow embedding of two parts of the broker:

    - [Fsm]: the [nodeState] state machine handed to the consensus engine
      ([Apply], [Publish], [CreateTopic], [CreatePartition], [Snapshot],
      [Restore]) together with the directory it creates per topic;
    - [Cluster]: the handlers of [cluster/application.go] that turn
      observations of the consensus engine into changes of the shard's
      member map and into replicated commands;
    - [Membership]: the [AddMember] and [RemoveMember] commands those
      handlers submit, as the design describes their effect;
    - [Rpc]: the handlers of the two RPCs that submit commands to the state
      machine; [Cli]: the publish command of the command line; [Shard]: the
      rest of [cluster/application.go], that is the leader observations,
      the cluster directory and the two queries.

    Go strings are [string], [int64] values are [Z], [uint64] values are [N]
    with the wrap-around written out where the code can reach it, the
    [sync.Map] and [haxmap.Map] tables are [gmap]s keyed by strings. *)

From Stdlib Require Import ZArith NArith Ascii String Lia.
From stdpp Require Import gmap strings list.

Open Scope string_scope.

(** ** Generated message types of the state machine (package [pb]) *)

Module pb.

(** Only [Key] is read by the state machine. *)
Record Message := { Key : string }.

Record Publish := {
  Publish_GetTopic : string;
  Publish_GetMessages : list Message
}.

Record CreateTopic := {
  CreateTopic_GetTopic : string;
  CreateTopic_GetPartitions : Z          (* int64 *)
}.

(** The [oneof] carried by [Write]; the payloads of the two reserved
    variants are never read. *)
Inductive isWrite_Operation :=
| Write_Publish (p : Publish)
| Write_CreateTopic (c : CreateTopic)
| Write_CreateConsumer
| Write_Consume.

Record Write := { Operation : option isWrite_Operation }.

End pb.

(** ** What a Go call can end in *)

(** A value of type [interface{}] as the handlers produce and inspect it. *)
Inductive iface :=
| Nil
| error_value (msg : string)
| AddMemberResult
| RemoveMemberResult
| other_value.

(** A call returns, panics (here: a method call through a nil interface) or
    ends the process ([log.Fatal] is [os.Exit(1)] after printing). *)
Inductive Outcome (A : Type) :=
| Returns (a : A)
| Panics
| Exits (code : Z).
Arguments Returns {A} a.
Arguments Panics {A}.
Arguments Exits {A} code.

(** How a call ends, without what it returns. *)
Definition ending {A} (o : Outcome A) : Outcome unit :=
  match o with
  | Returns _ => Returns tt
  | Panics => Panics
  | Exits c => Exits c
  end.

(** ** [strconv.FormatUint] *)

Definition digit_char (d : N) : ascii :=
  match String.get (N.to_nat d) "0123456789abcdefghijklmnopqrstuvwxyz" with
  | Some c => c
  | None => "0"%char
  end.

Fixpoint format_digits (fuel : nat) (i base : N) (acc : string) : string :=
  match fuel with
  | O => acc
  | S fuel' =>
      let acc' := String (digit_char (i mod base)) acc in
      if (i / base =? 0)%N then acc' else format_digits fuel' (i / base) base acc'
  end.

(** A [uint64] has at most 64 digits in any base from 2 to 36. *)
Definition FormatUint (i : N) (base : N) : string := format_digits 64 i base "".

(** ** The state machine *)

Module Fsm.

(** The libraries and the operating system the state machine calls, and
    the two identifiers [CreatePartition] uses although no file of the
    package declares them. *)
Class Externals := {
  (** The file system as the process finds it, and [os.Mkdir(name, 0755)]
      on it: [None] for an error, whatever its cause, otherwise the file
      system with the new directory. *)
  FileSystem : Type;
  os_Mkdir : FileSystem → string → option FileSystem;
  (** [proto.Unmarshal(data, &pb.Write{})]: the message as it is left and
      the error, [None] for a nil error, otherwise its [Error()] text. *)
  proto_Unmarshal : list Byte.byte → pb.Write * option string;
  (** [murmur3.New64()], written to, then [Sum64()]. *)
  murmur3_Sum64 : list Byte.byte → N;
  HashRing : Type;
  hashring_New : list string → HashRing;
  hashring_GetNode : HashRing → string → string * bool;
  (** [ring] and [hasher.Sum64()] as [CreatePartition] refers to them. *)
  ring : HashRing;
  hasher_Sum64 : N
}.

Record partition := {
  partition_num : Z;            (* int64 *)
  partition_topic : string;
  partition_offset : N          (* atomic.Uint64 *)
}.

Record topic `{Externals} := {
  name : string;
  partitions : list partition;
  hashRing : option HashRing    (* *hashring.HashRing *)
}.

(** [messages], the Bolt store, is declared and never used. *)
Record nodeState `{Externals} := { topics : gmap string topic }.

(** [raft.Log]; the state machine reads [Data] only. *)
Record Log := { Data : list Byte.byte }.

(** How a call of [Publish] ends. The body has no [return] after its loop,
    so a call that gets there has no result to give. *)
Inductive Publish_end :=
| Publish_returns (v : iface)
| Publish_panics
| Publish_no_return.

Section WithExternals.
Context `{Externals}.

Definition memcacheServers : list string :=
  ["192.168.0.246:11212"; "192.168.0.247:11212"; "192.168.0.249:11212"].

(** The local [server] of [CreatePartition]; the function drops it. *)
Definition CreatePartition_server : string :=
  fst (hashring_GetNode ring (FormatUint hasher_Sum64 10)).

Definition CreatePartition (partitionNum : Z) (topic : string) : partition :=
  let res := {| partition_num := partitionNum;
                partition_topic := topic;
                partition_offset := 0 |} in
  let _ := memcacheServers in
  let _ := CreatePartition_server in
  res.

(** The loop of [CreateTopic]: [n] iterations left, counter [i], the
    partitions and ring names so far, and the bytes written to [hasher]
    since its last [Reset]. *)
Fixpoint CreateTopic_loop (n : nat) (i : Z) (tname : string)
    (parts : list partition) (partitionHashed : list string)
    (hasher : list Byte.byte) : list partition * list string :=
  match n with
  | O => (parts, partitionHashed)
  | S n' =>
      let parts := (parts ++ [CreatePartition i tname])%list in
      let hasher := (hasher ++ replicate (Z.to_nat i) Byte.x00)%list in
      let partitionHashed :=
        (partitionHashed ++ [FormatUint (murmur3_Sum64 hasher) 2])%list in
      let hasher := [] in
      CreateTopic_loop n' (i + 1) tname parts partitionHashed hasher
  end.

Definition CreateTopic (fs : FileSystem) (f : nodeState) (req : pb.CreateTopic)
  : FileSystem * nodeState * iface :=
  match topics f !! pb.CreateTopic_GetTopic req with
  | Some _ => (fs, f, Nil)
  | None =>
      match os_Mkdir fs (pb.CreateTopic_GetTopic req) with
      | None => (fs, f, Nil)
      | Some fs' =>
          let '(parts, partitionHashed) :=
            CreateTopic_loop (Z.to_nat (pb.CreateTopic_GetPartitions req)) 0
              (pb.CreateTopic_GetTopic req) [] [] [] in
          let newTopic := {| name := pb.CreateTopic_GetTopic req;
                             partitions := parts;
                             hashRing := Some (hashring_New partitionHashed) |} in
          (fs', {| topics := <[pb.CreateTopic_GetTopic req := newTopic]> (topics f) |}, Nil)
      end
  end.

(** The nodes looked up by the loop of [Publish] on a ring; nothing is
    done with them. *)
Definition Publish_lookups (r : HashRing) (req : pb.Publish) : list (string * bool) :=
  map (λ m, hashring_GetNode r (pb.Key m)) (pb.Publish_GetMessages req).

(** A missing topic returns nil. Otherwise the loop looks each key up:
    with a nil [hashRing] the first lookup dereferences nil; when the loop
    is through, the body ends without a [return]. *)
Definition Publish (f : nodeState) (req : pb.Publish) : nodeState * Publish_end :=
  match topics f !! pb.Publish_GetTopic req with
  | None => (f, Publish_returns Nil)
  | Some curTopic =>
      match pb.Publish_GetMessages req, hashRing curTopic with
      | [], _ => (f, Publish_no_return)
      | _ :: _, None => (f, Publish_panics)
      | _ :: _, Some r =>
          let _ := Publish_lookups r req in
          (f, Publish_no_return)
      end
  end.

(** The [switch] of [Apply] on the decoded command. *)
Definition Apply_switch (fs : FileSystem) (f : nodeState) (operation : pb.Write)
  : FileSystem * nodeState * iface :=
  match pb.Operation operation with
  | Some (pb.Write_Publish _) => (fs, f, Nil)
  | Some (pb.Write_CreateTopic c) =>
      let '(fs', f', _) := CreateTopic fs f c in (fs', f', Nil)
  | Some pb.Write_CreateConsumer => (fs, f, Nil)
  | Some pb.Write_Consume => (fs, f, Nil)
  | None => (fs, f, Nil)
  end.

(** [err.Error()] is called whatever [err] is: on a nil [err] the call
    panics, on a non-empty text the process exits. *)
Definition Apply (fs : FileSystem) (f : nodeState) (l : Log)
  : Outcome (FileSystem * nodeState * iface) :=
  let '(operation, err) := proto_Unmarshal (Data l) in
  match err with
  | None => Panics
  | Some text =>
      if negb (String.length text =? 0)%nat then Exits 1
      else Returns (Apply_switch fs f operation)
  end.

(** [Snapshot] returns [(nil, nil)]: no snapshot and no error. *)
Definition Snapshot (f : nodeState) : option (list Byte.byte) * option string :=
  (None, None).

(** [Restore] does not read [r] and returns a nil error. *)
Definition Restore (f : nodeState) (r : list Byte.byte) : nodeState * option string :=
  (f, None).

(** A state machine as the host creates it: [&nodeState{}]. *)
Definition fresh : nodeState := {| topics := ∅ |}.

(** Commands run one after the other through the switch of [Apply]. *)
Fixpoint run (fs : FileSystem) (f : nodeState) (cmds : list pb.Write)
  : FileSystem * nodeState :=
  match cmds with
  | [] => (fs, f)
  | c :: cmds' => let '(fs', f', _) := Apply_switch fs f c in run fs' f' cmds'
  end.

(** Log entries run one after the other through [Apply], up to the first
    that does not return. *)
Fixpoint ApplyAll (fs : FileSystem) (f : nodeState) (ls : list Log)
  : Outcome (FileSystem * nodeState) :=
  match ls with
  | [] => Returns (fs, f)
  | l :: ls' =>
      match Apply fs f l with
      | Returns (fs', f', _) => ApplyAll fs' f' ls'
      | Panics => Panics
      | Exits c => Exits c
      end
  end.

(** The state machine as a log leaves it in memory: every entry that
    returns has been applied, up to the first that does not return; that
    one stops at the guard of [Apply], before anything is written. *)
Fixpoint left_by_log (fs : FileSystem) (f : nodeState) (ls : list Log) : nodeState :=
  match ls with
  | [] => f
  | l :: ls' =>
      match Apply fs f l with
      | Returns (fs', f', _) => left_by_log fs' f' ls'
      | _ => f
      end
  end.

End WithExternals.

End Fsm.

(** ** The membership reconciler ([cluster/application.go]) *)

Module Cluster.

(** What the handlers read of the consensus engine's types. *)
Module raft.

Record Server := { ID : string; Address : string }.

Record PeerObservation := { Removed : bool; Peer : Server }.

(** [LastContact] is a point in time, in nanoseconds. *)
Record FailedHeartbeatObservation := { PeerID : string; LastContact : Z }.

(** What [Raft.Apply(...)] hands back: [Error()] ([None] for nil) and
    [Response()]. *)
Record ApplyFuture := { Error : option string; Response : iface }.

End raft.

(** The replicated commands the reconciler submits. *)
Module fsmPb.

Inductive isWriteOperation_Operation :=
| WriteOperation_AddMember (NodeId Address : string)
| WriteOperation_RemoveMember (NodeId : string).

Inductive Operation_code := Operation_ADD_MEMBER | Operation_REMOVE_MEMBER.

Record WriteOperation := {
  Operation : isWriteOperation_Operation;
  Code : Operation_code
}.

End fsmPb.

Record MemberInfo := {
  NodeId : string;
  IsLeader : bool;
  Address : string
}.

(** The consensus engine as the handlers use it: what [RemoveServer(id,
    prevIndex, timeout).Error()] and [Apply(cmd, timeout)] answer, and
    [LastIndex()]. [Apply] receives the command serialized by
    [util.SerializeMessage], whose error the callers drop. *)
Record Raft := {
  RemoveServer : string → N → Z → option string;
  Apply : fsmPb.WriteOperation → Z → raft.ApplyFuture;
  LastIndex : N                                        (* uint64 *)
}.

Inductive Level := Trace | Debug | Info | Warn | Error.

(** What a handler does that can be seen from outside, in the order it does
    it: log lines (level, format and the peer named; the other arguments of
    a format are not kept), calls of the engine and writes to the member
    map. Reads of the engine's configuration leave no event. *)
Inductive Event :=
| Logged (lvl : Level) (format : string) (peer : string)
| RemoveServerCalled (id : string) (prevIndex : N) (timeout : Z)
| ApplyCalled (cmd : fsmPb.WriteOperation) (timeout : Z)
| MapDel (key : string)
| MapSet (key : string) (value : MemberInfo).

(** [RpcInterface] with [ClusterState.CurShardState.ShardInfo.MemberMap]
    brought to the top, and the events so far. *)
Record RpcInterface := {
  Raft_ : Raft;
  MemberMap : gmap string MemberInfo;
  journal : list Event
}.

(** Handlers are state transformers over [RpcInterface]. *)
Definition M (A : Type) : Type := RpcInterface → A * RpcInterface.

#[global] Instance M_ret : MRet M := λ A a i, (a, i).

#[global] Instance M_bind : MBind M :=
  λ A B k m i, let '(a, i') := m i in k a i'.

Definition emit (e : Event) : M unit :=
  λ i, (tt, {| Raft_ := Raft_ i; MemberMap := MemberMap i;
               journal := (journal i ++ [e])%list |}).

Definition Msgf (lvl : Level) (format peer : string) : M unit :=
  emit (Logged lvl format peer).

(** [getMemberMap().Get], [.Set] and [.Del]. *)
Definition MemberMap_Get (key : string) : M (option MemberInfo) :=
  λ i, (MemberMap i !! key, i).

Definition MemberMap_Set (key : string) (value : MemberInfo) : M unit :=
  λ i, (tt, {| Raft_ := Raft_ i; MemberMap := <[key := value]> (MemberMap i);
               journal := (journal i ++ [MapSet key value])%list |}).

Definition MemberMap_Del (key : string) : M unit :=
  λ i, (tt, {| Raft_ := Raft_ i; MemberMap := delete key (MemberMap i);
               journal := (journal i ++ [MapDel key])%list |}).

Definition Raft_LastIndex : M N := λ i, (LastIndex (Raft_ i), i).

Definition Raft_RemoveServer (id : string) (prevIndex : N) (timeout : Z)
  : M (option string) :=
  λ i, (RemoveServer (Raft_ i) id prevIndex timeout,
        {| Raft_ := Raft_ i; MemberMap := MemberMap i;
           journal := (journal i ++ [RemoveServerCalled id prevIndex timeout])%list |}).

Definition Raft_Apply (cmd : fsmPb.WriteOperation) (timeout : Z)
  : M raft.ApplyFuture :=
  λ i, (Apply (Raft_ i) cmd timeout,
        {| Raft_ := Raft_ i; MemberMap := MemberMap i;
           journal := (journal i ++ [ApplyCalled cmd timeout])%list |}).

(** [time.Second], a [Duration] in nanoseconds. *)
Definition time_Second : Z := 1000000000.

(** [t.Sub(u)]: the difference, kept within [int64]. *)
Definition time_Sub (t u : Z) : Z :=
  Z.max (- 2 ^ 63) (Z.min (2 ^ 63 - 1) (t - u)).

(** [d.Seconds() > 10]: [Seconds] is [float64(d / 1e9) + float64(d % 1e9) / 1e9],
    which exceeds 10 exactly when [d] exceeds ten seconds. *)
Definition Seconds_gt_10 (d : Z) : bool := (10 * time_Second <? d)%Z.

(** [x - 1] on [uint64]. *)
Definition uint64_pred (x : N) : N := ((x + (2 ^ 64 - 1)) mod 2 ^ 64)%N.

(** [v.(error)]: the error and whether [v] is one. *)
Definition as_error (v : iface) : option string * bool :=
  match v with
  | error_value msg => (Some msg, true)
  | _ => (None, false)
  end.

(** A bare [log.Err(err)] builds a log event and never sends it. *)
Definition ReplicatePeer (update : raft.PeerObservation) : M (option string) :=
  let input :=
    {| fsmPb.Operation :=
         fsmPb.WriteOperation_AddMember (raft.ID (raft.Peer update))
                                        (raft.Address (raft.Peer update));
       fsmPb.Code := fsmPb.Operation_ADD_MEMBER |} in
  res ← Raft_Apply input time_Second;
  match raft.Error res with
  | Some err => mret (Some err)
  | None =>
      let '(err, isErr) := as_error (raft.Response res) in
      if isErr then mret err
      else
        let isValid := match raft.Response res with AddMemberResult => true | _ => false end in
        if negb isValid then mret err else mret None
  end.

Definition RemovePeer (peerId : string) : M (option string) :=
  let input :=
    {| fsmPb.Operation := fsmPb.WriteOperation_RemoveMember peerId;
       fsmPb.Code := fsmPb.Operation_REMOVE_MEMBER |} in
  res ← Raft_Apply input time_Second;
  match raft.Error res with
  | Some err => mret (Some err)
  | None =>
      let '(err, isErr) := as_error (raft.Response res) in
      if isErr then mret err
      else
        let isValid := match raft.Response res with RemoveMemberResult => true | _ => false end in
        if negb isValid then mret err else mret None
  end.

(** [now] is what [time.Now()] reads. *)
Definition onFailedHeartbeat (now : Z) (update : raft.FailedHeartbeatObservation)
  : M unit :=
  Msgf Warn "Peer %s cannot be connected to, last contact: %s, nodes: %s"
       (raft.PeerID update);;
  if Seconds_gt_10 (time_Sub now (raft.LastContact update)) then
    lastIndex ← Raft_LastIndex;
    err ← Raft_RemoveServer (raft.PeerID update) (uint64_pred lastIndex) 0;
    match err with
    | Some _ => mret tt
    | None =>
        Msgf Info "Peer %s is removed" (raft.PeerID update);;
        MemberMap_Del (raft.PeerID update);;
        err ← RemovePeer (raft.PeerID update);
        match err with
        | Some _ => Msgf Error "Error removing peer %s" (raft.PeerID update)
        | None => mret tt
        end
    end
  else mret tt.

Definition onPeerUpdate (update : raft.PeerObservation) : M unit :=
  let id := raft.ID (raft.Peer update) in
  if raft.Removed update then
    Msgf Info "Peer %s is removed" id;;
    MemberMap_Del id;;
    err ← RemovePeer id;
    match err with
    | Some _ => Msgf Error "Error removing peer %s" id
    | None => mret tt
    end
  else if (String.length id =? 0)%nat then mret tt
  else
    found ← MemberMap_Get id;
    match found with
    | Some _ => Msgf Debug "Peer %s already exists, no-op" id
    | None =>
        MemberMap_Set id {| NodeId := id; IsLeader := false;
                            Address := raft.Address (raft.Peer update) |};;
        Msgf Info "Replicating peer %s" id;;
        err ← ReplicatePeer update;
        match err with
        | Some _ => Msgf Error "Error replicating peer %s" id
        | None => Msgf Info "Peer %s is added" id
        end
    end.

(** The calls among the events that ask the engine for a change:
    [RemoveServer] and [Apply]. *)
Definition engine_calls (evs : list Event) : list Event :=
  List.filter (λ e, match e with
                    | RemoveServerCalled _ _ _ | ApplyCalled _ _ => true
                    | _ => false
                    end) evs.


End Cluster.

(** ** The membership commands of the state machine *)

Module Membership.

(** Modelled from the spec: the state machine's handling of an [AddMember]
    command. It belongs to the application package, which is not among the
    sources; the reconciler only submits the command and expects an
    [AddMemberResult] back. Section 4.1: an idempotent upsert into the
    shard's member map, a no-op and not an error when the member is
    present. *)
Definition AddMember (m : gmap string Cluster.MemberInfo) (nodeId address : string)
  : gmap string Cluster.MemberInfo * iface :=
  match m !! nodeId with
  | Some _ => (m, AddMemberResult)
  | None =>
      (<[nodeId := {| Cluster.NodeId := nodeId; Cluster.IsLeader := false;
                      Cluster.Address := address |}]> m, AddMemberResult)
  end.

(** Modelled from the spec: the state machine's handling of a
    [RemoveMember] command, absent from the sources like [AddMember].
    Section 4.1: an idempotent delete from the shard's member map, a no-op
    and not an error when the member is absent. *)
Definition RemoveMember (m : gmap string Cluster.MemberInfo) (nodeId : string)
  : gmap string Cluster.MemberInfo * iface :=
  (delete nodeId m, RemoveMemberResult).

(** The entries a member map holds for a node. *)
Definition entries_for (m : gmap string Cluster.MemberInfo) (nodeId : string)
  : list (string * Cluster.MemberInfo) :=
  filter (λ kv, kv.1 = nodeId) (map_to_list m).

End Membership.

(** ** Concrete inputs *)

(** A Linux directory tree for [os.Mkdir] to work on: the directories that
    exist, the latest first, each by the names on its path from the root,
    and the working directory of the process. The root, [[]], always
    exists. The tree holds no files and no links, and the process may write
    everywhere, so [mkdir] fails for a path that is empty or too long, for
    a missing parent and for a directory that exists. *)
Module Linux.

Record Tree := { cwd : list string; dirs : list (list string) }.

Definition is_dir (t : Tree) (p : list string) : bool :=
  bool_decide (p = [] ∨ p ∈ dirs t).

(** A path cut at its slashes; [cur] is the component being read. *)
Fixpoint split_slash (path : string) (cur : string) : list string :=
  match path with
  | EmptyString => [cur]
  | String c rest =>
      if Ascii.eqb c "/" then cur :: split_slash rest ""
      else split_slash rest (cur ++ String c "")
  end.

Fixpoint has_nul (path : string) : bool :=
  match path with
  | EmptyString => false
  | String c rest => Ascii.eqb c "000" || has_nul rest
  end.

Fixpoint drop_empty (comps : list string) : list string :=
  match comps with
  | "" :: rest => drop_empty rest
  | _ => comps
  end.

(** Slashes at the end of a path do not count. *)
Definition strip_trailing (comps : list string) : list string :=
  rev (drop_empty (rev comps)).

(** One step of a walk: from the directory [from], if the walk got there,
    into the component [c]. *)
Definition walk (t : Tree) (from : option (list string)) (c : string)
  : option (list string) :=
  match from with
  | None => None
  | Some d =>
      if bool_decide (c = "" ∨ c = ".") then Some d
      else if bool_decide (c = "..") then Some (removelast d)
      else if is_dir t (d ++ [c])%list then Some (d ++ [c])%list
      else None
  end.

Definition mkdir (t : Tree) (path : string) : option Tree :=
  if bool_decide (path = "") then None                        (* ENOENT *)
  else if has_nul path then None                              (* EINVAL *)
  else if (4096 <=? String.length path)%nat then None         (* ENAMETOOLONG *)
  else
    let start :=
      if String.prefix "/" path then Some []
      else if is_dir t (cwd t) then Some (cwd t) else None in
    match strip_trailing (split_slash path "") with
    | [] => None                                              (* the root: EEXIST *)
    | comps =>
        let last := List.last comps "" in
        match fold_left (walk t) (removelast comps) start with
        | None => None                                        (* ENOENT *)
        | Some parent =>
            if bool_decide (last = "." ∨ last = "..") then None
            else if (255 <? String.length last)%nat then None (* ENAMETOOLONG *)
            else if is_dir t (parent ++ [last])%list then None     (* EEXIST *)
            else Some {| cwd := cwd t;
                         dirs := (parent ++ [last])%list :: dirs t |}
        end
    end.

End Linux.

(** What the state machine is run with on concrete inputs. The theorems
    hold for every instance of [Fsm.Externals]; this one serves to evaluate
    the definitions.

    - The file system is a [Linux.Tree].
    - The decoder reads an empty buffer as the empty message, as
      [proto.Unmarshal] does; every other buffer is refused, a stand-in,
      since the wire format of [pb.Write] is not among the sources.
    - The hash is the number of bytes written, a stand-in.
    - A ring is the list of its nodes. A lookup in an empty ring finds
      nothing and a lookup in a ring of one node finds that node, as in the
      library; in a larger ring it answers with the first node, a
      stand-in.
    - [ring] is the empty ring and [hasher]'s sum is 0, the sum of a hasher
      nothing was written to. *)
Definition sampleExternals : Fsm.Externals := {|
  Fsm.FileSystem := Linux.Tree;
  Fsm.os_Mkdir := Linux.mkdir;
  Fsm.proto_Unmarshal := λ data,
    match data with
    | [] => ({| pb.Operation := None |}, None)
    | _ => ({| pb.Operation := None |},
            Some "proto: cannot parse invalid wire-format data")
    end;
  Fsm.murmur3_Sum64 := λ data, N.of_nat (length data);
  Fsm.HashRing := list string;
  Fsm.hashring_New := λ nodes, nodes;
  Fsm.hashring_GetNode := λ r key,
    match r with
    | [] => ("", false)
    | node :: _ => (node, true)
    end;
  Fsm.ring := [];
  Fsm.hasher_Sum64 := 0
|}.

(** The working directory [/srv/jet], empty, and the same with a
    directory [t] in it. *)
Definition no_entries : @Fsm.FileSystem sampleExternals :=
  {| Linux.cwd := ["srv"; "jet"];
     Linux.dirs := [["srv"; "jet"]; ["srv"]] |}.

Definition with_t : @Fsm.FileSystem sampleExternals :=
  {| Linux.cwd := ["srv"; "jet"];
     Linux.dirs := [["srv"; "jet"; "t"]; ["srv"; "jet"]; ["srv"]] |}.

(** [CreateTopic] and [Publish] commands as they come out of the decoder. *)
Definition create (t : string) (n : Z) : pb.Write :=
  {| pb.Operation := Some (pb.Write_CreateTopic
       {| pb.CreateTopic_GetTopic := t; pb.CreateTopic_GetPartitions := n |}) |}.

Definition publish (t : string) (keys : list string) : pb.Write :=
  {| pb.Operation := Some (pb.Write_Publish
       {| pb.Publish_GetTopic := t;
          pb.Publish_GetMessages := map (λ k, {| pb.Key := k |}) keys |}) |}.

(** The state machine after [CreateTopic("t", 1)] in an empty directory. *)
Definition one_topic : @Fsm.nodeState sampleExternals :=
  (@Fsm.run sampleExternals no_entries (@Fsm.fresh sampleExternals) [create "t" 1]).2.

(** The wire format of [pb.Write] is not among the sources. To run [Apply]
    on an entry that decodes to a given command [w], the libraries above
    with a decoder that reads every entry as [w], without error. *)
Definition decoding (w : pb.Write) : Fsm.Externals := {|
  Fsm.FileSystem := Linux.Tree;
  Fsm.os_Mkdir := Linux.mkdir;
  Fsm.proto_Unmarshal := λ _, (w, None);
  Fsm.murmur3_Sum64 := @Fsm.murmur3_Sum64 sampleExternals;
  Fsm.HashRing := list string;
  Fsm.hashring_New := @Fsm.hashring_New sampleExternals;
  Fsm.hashring_GetNode := @Fsm.hashring_GetNode sampleExternals;
  Fsm.ring := [];
  Fsm.hasher_Sum64 := 0
|}.

(** [one_topic] for that decoder. *)
Definition one_topic_decoding (w : pb.Write) : @Fsm.nodeState (decoding w) :=
  (@Fsm.run (decoding w) no_entries (@Fsm.fresh (decoding w)) [create "t" 1]).2.

(** A shard whose only member is [n1]. *)
Definition member_n1 : Cluster.MemberInfo :=
  {| Cluster.NodeId := "n1"; Cluster.IsLeader := false;
     Cluster.Address := "10.0.0.1:7000" |}.

Definition only_n1 : gmap string Cluster.MemberInfo := {["n1" := member_n1]}.

(** An engine that refuses every request: [RemoveServer] and [Apply] both
    answer with an error. *)
Definition refusing : Cluster.Raft := {|
  Cluster.RemoveServer := λ _ _ _, Some "configuration changed since 6";
  Cluster.Apply := λ _ _,
    {| Cluster.raft.Error := Some "timed out enqueuing operation";
       Cluster.raft.Response := Nil |};
  Cluster.LastIndex := 7
|}.

(** An engine that accepts every request and answers each command with the
    result the reconciler expects. *)
Definition accepting : Cluster.Raft := {|
  Cluster.RemoveServer := λ _ _ _, None;
  Cluster.Apply := λ cmd _,
    {| Cluster.raft.Error := None;
       Cluster.raft.Response :=
         match Cluster.fsmPb.Code cmd with
         | Cluster.fsmPb.Operation_ADD_MEMBER => AddMemberResult
         | Cluster.fsmPb.Operation_REMOVE_MEMBER => RemoveMemberResult
         end |};
  Cluster.LastIndex := 7
|}.

(** The reconciler of a shard that knows [n1], before any event. *)
Definition reconciler (engine : Cluster.Raft) : Cluster.RpcInterface :=
  {| Cluster.Raft_ := engine; Cluster.MemberMap := only_n1; Cluster.journal := [] |}.

(** A peer [n2] seen joining, and the peer [n1] seen removed. *)
Definition n2_joined : Cluster.raft.PeerObservation :=
  {| Cluster.raft.Removed := false;
     Cluster.raft.Peer := {| Cluster.raft.ID := "n2";
                             Cluster.raft.Address := "10.0.0.2:7000" |} |}.

Definition n1_removed : Cluster.raft.PeerObservation :=
  {| Cluster.raft.Removed := true;
     Cluster.raft.Peer := {| Cluster.raft.ID := "n1";
                             Cluster.raft.Address := "10.0.0.1:7000" |} |}.

(** A joining peer without an id. *)
Definition nameless_joined : Cluster.raft.PeerObservation :=
  {| Cluster.raft.Removed := false;
     Cluster.raft.Peer := {| Cluster.raft.ID := "";
                             Cluster.raft.Address := "10.0.0.9:7000" |} |}.

(** A heartbeat to [n1] that failed, last contact at second 100; it is
    handled at second 111. *)
Definition n1_silent : Cluster.raft.FailedHeartbeatObservation :=
  {| Cluster.raft.PeerID := "n1";
     Cluster.raft.LastContact := 100 * Cluster.time_Second |}.

Definition second_111 : Z := 111 * Cluster.time_Second.

(** ** Notions the statements use *)

(** The offsets of a topic's partitions, in order; none for a missing
    topic. *)
Definition offsets `{Fsm.Externals} (f : Fsm.nodeState) (t : string) : list N :=
  match Fsm.topics f !! t with
  | Some tp => map Fsm.partition_offset (Fsm.partitions tp)
  | None => []
  end.

(** ** The RPC handlers in front of the state machine *)

Module Rpc.

(** What [Response()] of an applied entry can hold: the value the state
    machine returned, or a value of one of the two types the handlers
    assert. *)
Inductive response :=
| from_fsm (v : iface)
| Messages (ms : list pb.Message)       (* []*pb.Message *)
| CreateTopicResponse.                  (* *pb.CreateTopicResponse *)

Record ApplyFuture := { Error : option string; Response : response }.

(** [rpcInterface]: the handlers use [raft] only, through [Apply], which
    receives the command marshalled by [proto.Marshal] (its error is
    dropped) and a timeout. *)
Record rpcInterface := { raft_Apply : pb.Write → Z → ApplyFuture }.

Record PublishMessageRequest := {
  PublishMessageRequest_GetTopic : string;
  PublishMessageRequest_GetMessages : list pb.Message
}.

Record CreateTopicRequest := {
  CreateTopicRequest_GetTopic : string;
  CreateTopicRequest_GetNumPartitions : Z
}.

(** [rafterrors.MarkRetriable(err)]. *)
Inductive rpc_error := Retriable (err : string).

Definition Publish_input (req : PublishMessageRequest) : pb.Write :=
  {| pb.Operation := Some (pb.Write_Publish
       {| pb.Publish_GetTopic := PublishMessageRequest_GetTopic req;
          pb.Publish_GetMessages := PublishMessageRequest_GetMessages req |}) |}.

Definition CreateTopic_input (req : CreateTopicRequest) : pb.Write :=
  {| pb.Operation := Some (pb.Write_CreateTopic
       {| pb.CreateTopic_GetTopic := CreateTopicRequest_GetTopic req;
          pb.CreateTopic_GetPartitions := CreateTopicRequest_GetNumPartitions req |}) |}.

(** [res.Response().([]*pb.Message)] has no second result: it panics on a
    value of any other type, nil included. *)
Definition PublishMessagesInternal (r : rpcInterface) (req : PublishMessageRequest)
  : Outcome (option (list pb.Message) * option rpc_error) :=
  let res := raft_Apply r (Publish_input req) Cluster.time_Second in
  match Error res with
  | Some err => Returns (None, Some (Retriable err))
  | None =>
      match Response res with
      | Messages ms => Returns (Some ms, None)
      | _ => Panics
      end
  end.

(** The response is built before the error is looked at. *)
Definition PublishMessages (r : rpcInterface) (req : PublishMessageRequest)
  : Outcome (option (list pb.Message) * option rpc_error) :=
  match PublishMessagesInternal r req with
  | Returns (messages, err) =>
      let res := messages in
      match err with
      | Some e => Returns (None, Some e)
      | None => Returns (res, None)
      end
  | Panics => Panics
  | Exits c => Exits c
  end.

Definition CreateTopicInternal (r : rpcInterface) (req : CreateTopicRequest)
  : Outcome (option unit * option rpc_error) :=
  let res := raft_Apply r (CreateTopic_input req) Cluster.time_Second in
  match Error res with
  | Some err => Returns (None, Some (Retriable err))
  | None =>
      match Response res with
      | CreateTopicResponse => Returns (Some tt, None)
      | _ => Panics
      end
  end.

Definition CreateTopic (r : rpcInterface) (req : CreateTopicRequest)
  : Outcome (option unit * option rpc_error) :=
  match CreateTopicInternal r req with
  | Returns (res, err) =>
      match err with
      | Some e => Returns (None, Some e)
      | None => Returns (res, None)
      end
  | Panics => Panics
  | Exits c => Exits c
  end.

End Rpc.

(** ** The publish command of the command line *)

Module Cli.

Record KeyVal := { Key : string; Val : string }.

(** The loop of [process]: [for i := 0; i < len(messageStr)-1; i += 2].
    [None] when [fuel] iterations do not reach the end; an index out of
    range panics. *)
Fixpoint process_loop (fuel : nat) (messageStr : list string) (i : nat)
    (arr : list KeyVal) : option (Outcome (list KeyVal)) :=
  if (Z.of_nat i <? Z.of_nat (length messageStr) - 1)%Z then
    match fuel with
    | O => None
    | S fuel' =>
        match messageStr !! i, messageStr !! (i + 1) with
        | Some k, Some v =>
            process_loop fuel' messageStr (i + 2)
                         (arr ++ [{| Key := k; Val := v |}])%list
        | _, _ => Some Panics
        end
    end
  else Some (Returns arr).

(** [p.client.PublishMessage(arr, topic)] as [process] sees it: a result or
    an error. *)
Definition Publisher (Res : Type) : Type := list KeyVal → string → Res + string.

(** [process]: the pairs built from the [messages] flag go to the client
    with the [topic] flag; an error of the client is logged and handed
    on. *)
Definition process {Res} (p : Publisher Res) (messageStr : list string) (topic : string)
  : option (Outcome (option Res * option string)) :=
  match process_loop (length messageStr) messageStr 0 [] with
  | None => None
  | Some (Returns arr) =>
      match p arr topic with
      | inr err => Some (Returns (None, Some err))
      | inl res => Some (Returns (Some res, None))
      end
  | Some Panics => Some Panics
  | Some (Exits c) => Some (Exits c)
  end.

(** The arguments a list of pairs was built from. *)
Definition flatten (arr : list KeyVal) : list string :=
  concat (map (λ kv, [Key kv; Val kv]) arr).

End Cli.

(** ** The shard around the reconciler ([cluster/application.go]) *)

Module Shard.

(** [raft.LeaderObservation]. *)
Record LeaderObservation := { LeaderAddr : string; LeaderID : string }.

Inductive RaftState := Follower | Candidate | Leader | Shutdown.

(** [observable.Data] by its type; [OtherObservation] is a value of any
    type the switch of [onRaftUpdates] has no case for. *)
Inductive Observation :=
| RequestVoteRequest
| StateObservation (state : RaftState)
| PeerObservation (update : Cluster.raft.PeerObservation)
| LeaderObservation_ (update : LeaderObservation)
| FailedHeartbeatObservation (update : Cluster.raft.FailedHeartbeatObservation)
| OtherObservation.

(** A [ShardInfo] other than the current shard's. *)
Record ShardInfo := {
  ShardInfo_shardId : string;
  ShardInfo_leader : string;
  ShardInfo_MemberMap : gmap string Cluster.MemberInfo
}.

(** A [*ShardInfo] in the cluster directory: the current shard's own
    [ShardInfo], which the handlers write, or another one. *)
Inductive ShardPtr := CurShard | OtherShard (info : ShardInfo).

(** [RpcInterface] with what the handlers of [Cluster] leave out:
    [rpc] holds the engine, the current shard's member map and the events;
    [shardId] and [leader] are the other fields of the current shard's
    [ShardInfo]; [CurMemberInfo] is [CurShardState.MemberInfo];
    [Servers] is what [Raft.GetConfiguration().Configuration().Servers]
    answers. *)
Record ClusterState := {
  rpc : Cluster.RpcInterface;
  shardId : string;
  leader : string;
  CurMemberInfo : Cluster.MemberInfo;
  Servers : list Cluster.raft.Server;
  ClusterInfo : gmap string ShardPtr
}.

Definition getMemberMap (st : ClusterState) : gmap string Cluster.MemberInfo :=
  Cluster.MemberMap (rpc st).

Definition getLeader (st : ClusterState) : string := leader st.

Definition getShardId (st : ClusterState) : string := shardId st.

Definition getMemberInfo (st : ClusterState) : Cluster.MemberInfo := CurMemberInfo st.

(** A handler of [Cluster] run on the shard. *)
Definition lift (h : Cluster.M unit) (st : ClusterState) : ClusterState :=
  {| rpc := (h (rpc st)).2; shardId := shardId st; leader := leader st;
     CurMemberInfo := CurMemberInfo st; Servers := Servers st;
     ClusterInfo := ClusterInfo st |}.

(** [getCurShardInfo().leader = l] and [getMemberInfo().IsLeader = b]. *)
Definition set_leader (l : string) (b : bool) (st : ClusterState) : ClusterState :=
  {| rpc := rpc st; shardId := shardId st; leader := l;
     CurMemberInfo := {| Cluster.NodeId := Cluster.NodeId (CurMemberInfo st);
                         Cluster.IsLeader := b;
                         Cluster.Address := Cluster.Address (CurMemberInfo st) |};
     Servers := Servers st; ClusterInfo := ClusterInfo st |}.

(** [InitClusterState]: the member map holds the node itself, the cluster
    directory points to the current shard. Registering the observer and
    starting [onRaftUpdates] leave no trace here. *)
Definition InitClusterState (engine : Cluster.Raft) (servers : list Cluster.raft.Server)
    (nodeName address shardId : string) : ClusterState :=
  let self := {| Cluster.NodeId := nodeName; Cluster.IsLeader := false;
                 Cluster.Address := address |} in
  {| rpc := {| Cluster.Raft_ := engine;
               Cluster.MemberMap := <[nodeName := self]> ∅;
               Cluster.journal := [] |};
     shardId := shardId;
     leader := "";
     CurMemberInfo := self;
     Servers := servers;
     ClusterInfo := <[shardId := CurShard]> ∅ |}.

(** The body of the loop over the configured servers. *)
Definition add_server (st : ClusterState) (server : Cluster.raft.Server) : ClusterState :=
  match getMemberMap st !! Cluster.raft.ID server with
  | Some _ => st
  | None =>
      lift (Cluster.Msgf Cluster.Info "adding server %s" (Cluster.raft.ID server);;
            Cluster.MemberMap_Set (Cluster.raft.ID server)
              {| Cluster.NodeId := Cluster.raft.ID server;
                 Cluster.IsLeader := false;
                 Cluster.Address := Cluster.raft.Address server |}) st
  end.

Definition onLeaderUpdate (update : LeaderObservation) (st : ClusterState) : ClusterState :=
  if decide (LeaderID update = Cluster.NodeId (getMemberInfo st)) then
    let st := lift (Cluster.Msgf Cluster.Debug "Node is already leader" "") st in
    set_leader (LeaderID update) true st
  else
    let st := set_leader (LeaderID update) false st in
    match getMemberMap st !! LeaderID update with
    | Some _ =>
        lift (Cluster.Msgf Cluster.Debug "Leader %s already exists, no-op"
                           (LeaderAddr update)) st
    | None =>
        let st := fold_left add_server (Servers st) st in
        lift (Cluster.MemberMap_Set (LeaderID update)
                {| Cluster.NodeId := LeaderID update;
                   Cluster.IsLeader := true;
                   Cluster.Address := LeaderAddr update |}) st
    end.

Definition RaftState_String (state : RaftState) : string :=
  match state with
  | Follower => "Follower"
  | Candidate => "Candidate"
  | Leader => "Leader"
  | Shutdown => "Shutdown"
  end.

Definition onStateUpdate (state : RaftState) (st : ClusterState) : ClusterState :=
  let st :=
    match state with
    | Follower => st
    | Leader => st
    | Shutdown => lift (Cluster.Msgf Cluster.Warn "Shutting down" "") st
    | Candidate => lift (Cluster.Msgf Cluster.Debug "Node is now Candidate" "") st
    end in
  lift (Cluster.Msgf Cluster.Trace "State is now %s" (RaftState_String state)) st.

(** The [switch] of [onRaftUpdates] on one observation; [now] is the clock
    as the handler reads it. *)
Definition onRaftUpdates_switch (now : Z) (observable : Observation) (st : ClusterState)
  : ClusterState :=
  match observable with
  | RequestVoteRequest => lift (Cluster.Msgf Cluster.Debug "vote requested" "") st
  | StateObservation val => onStateUpdate val st
  | PeerObservation val => lift (Cluster.onPeerUpdate val) st
  | LeaderObservation_ val => onLeaderUpdate val st
  | FailedHeartbeatObservation val => lift (Cluster.onFailedHeartbeat now val) st
  | OtherObservation => st
  end.

(** Observations handled one after the other, each at its own time. *)
Definition handle_all (events : list (Z * Observation)) (st : ClusterState) : ClusterState :=
  fold_left (λ st ev, onRaftUpdates_switch ev.1 ev.2 st) events st.

(** [pb.MemberInfo] and [pb.ShardInfo] of the cluster service. *)
Record pb_MemberInfo := { pb_NodeId : string; pb_Address : string }.

Record pb_ShardInfo := {
  MemberAddressMap : gmap string pb_MemberInfo;
  LeaderId : string;
  ShardId : string
}.

(** [memberMap.ForEach] filling a Go map. *)
Definition toProtoMemberMap (memberMap : gmap string Cluster.MemberInfo)
  : gmap string pb_MemberInfo :=
  map_fold (λ s info res,
              <[s := {| pb_NodeId := Cluster.NodeId info;
                        pb_Address := Cluster.Address info |}]> res)
           ∅ memberMap.

Definition GetShardInfo (st : ClusterState) : pb_ShardInfo :=
  {| MemberAddressMap :=
       map_fold (λ s info res,
                   <[s := {| pb_NodeId := Cluster.NodeId info;
                             pb_Address := Cluster.Address info |}]> res)
                ∅ (getMemberMap st);
     LeaderId := getLeader st;
     ShardId := getShardId st |}.

(** The [ShardInfo] a pointer of the directory leads to. *)
Definition deref (st : ClusterState) (p : ShardPtr) : ShardInfo :=
  match p with
  | CurShard => {| ShardInfo_shardId := shardId st; ShardInfo_leader := leader st;
                   ShardInfo_MemberMap := getMemberMap st |}
  | OtherShard info => info
  end.

Definition GetClusterInfo (st : ClusterState) : gmap string pb_ShardInfo :=
  map_fold (λ s p resMap,
              let info := deref st p in
              <[s := {| MemberAddressMap := toProtoMemberMap (ShardInfo_MemberMap info);
                        LeaderId := ShardInfo_leader info;
                        ShardId := ShardInfo_shardId info |}]> resMap)
           ∅ (ClusterInfo st).

End Shard.

(** Every entry of a member map is stored under its own node id. *)
Definition keyed_by_id (m : gmap string Cluster.MemberInfo) : Prop :=
  map_Forall (λ k info, Cluster.NodeId info = k) m.

(** Every topic of a table is stored under its name, with partitions
    numbered from 0, all of that topic and at offset 0, and a ring. *)
Definition well_formed `{Fsm.Externals} (f : Fsm.nodeState) : Prop :=
  map_Forall (λ t tp,
    Fsm.name tp = t
    ∧ Fsm.partitions tp =
        ((λ k, {| Fsm.partition_num := k; Fsm.partition_topic := t;
                  Fsm.partition_offset := 0 |})
           <$> seqZ 0 (Z.of_nat (length (Fsm.partitions tp))))
    ∧ is_Some (Fsm.hashRing tp)) (Fsm.topics f).

(** A shard of three configured servers, for a node [n1]. *)
Definition three_servers : list Cluster.raft.Server :=
  [{| Cluster.raft.ID := "n1"; Cluster.raft.Address := "10.0.0.1:7000" |};
   {| Cluster.raft.ID := "n2"; Cluster.raft.Address := "10.0.0.2:7000" |};
   {| Cluster.raft.ID := "n3"; Cluster.raft.Address := "10.0.0.3:7000" |}].

Definition shard_of_n1 : Shard.ClusterState :=
  Shard.InitClusterState accepting three_servers "n1" "10.0.0.1:7000" "shard-a".

Definition n3_leads : Shard.LeaderObservation :=
  {| Shard.LeaderAddr := "10.0.0.3:7000"; Shard.LeaderID := "n3" |}.


(** An engine in front of the RPC handlers that reports no error and hands
    back what the switch of [Apply] answers on an empty state machine. *)
Definition serving : Rpc.rpcInterface := {|
  Rpc.raft_Apply := λ cmd _,
    {| Rpc.Error := None;
       Rpc.Response :=
         Rpc.from_fsm (@Fsm.Apply_switch sampleExternals no_entries
                         (@Fsm.fresh sampleExternals) cmd).2 |}
|}.

(** * Properties of the state machine *)

Section FsmFacts.
Context `{Fsm.Externals}.
Import Fsm.

(** The loop appends one partition and one ring name per index from [i]. *)
Lemma CreateTopic_loop_spec n i t parts hashed :
  CreateTopic_loop n i t parts hashed [] =
    ((parts ++ ((λ k, {| partition_num := k; partition_topic := t;
                         partition_offset := 0 |}) <$> seqZ i (Z.of_nat n)))%list,
     (hashed ++ ((λ k, FormatUint (murmur3_Sum64 (replicate (Z.to_nat k) Byte.x00)) 2)
                   <$> seqZ i (Z.of_nat n)))%list).
Proof.
  revert i parts hashed. induction n as [|n IH]; intros i parts hashed.
  - simpl. by rewrite !app_nil_r.
  - cbn [CreateTopic_loop]. rewrite IH.
    rewrite (seqZ_cons i (Z.of_nat (S n))) by lia.
    replace (Z.pred (Z.of_nat (S n))) with (Z.of_nat n) by lia.
    replace (Z.succ i) with (i + 1)%Z by lia.
    rewrite !fmap_cons, <- !app_assoc. reflexivity.
Qed.

Lemma seqZ_to_nat m n : seqZ m (Z.of_nat (Z.to_nat n)) = seqZ m n.
Proof. unfold seqZ. by rewrite Nat2Z.id. Qed.

(** A topic that exists, or a directory that cannot be made: nothing
    changes and nil comes back. *)
Lemma CreateTopic_keeps fs f req :
  is_Some (topics f !! pb.CreateTopic_GetTopic req)
  ∨ os_Mkdir fs (pb.CreateTopic_GetTopic req) = None →
  CreateTopic fs f req = (fs, f, Nil).
Proof.
  intros [[tp Htp] | Hmk]; unfold CreateTopic.
  - by rewrite Htp.
  - destruct (topics f !! _); [done|]. by rewrite Hmk.
Qed.

(** What [CreateTopic] stores otherwise. *)
Lemma CreateTopic_stores fs f req fs' :
  topics f !! pb.CreateTopic_GetTopic req = None →
  os_Mkdir fs (pb.CreateTopic_GetTopic req) = Some fs' →
  CreateTopic fs f req =
    (fs',
     {| topics :=
          <[pb.CreateTopic_GetTopic req :=
              {| name := pb.CreateTopic_GetTopic req;
                 partitions :=
                   (λ k, {| partition_num := k;
                            partition_topic := pb.CreateTopic_GetTopic req;
                            partition_offset := 0 |})
                     <$> seqZ 0 (pb.CreateTopic_GetPartitions req);
                 hashRing :=
                   Some (hashring_New
                     ((λ k, FormatUint
                              (murmur3_Sum64 (replicate (Z.to_nat k) Byte.x00)) 2)
                        <$> seqZ 0 (pb.CreateTopic_GetPartitions req))) |}]>
            (topics f) |},
     Nil).
Proof.
  intros Hfree Hmk. unfold CreateTopic.
  by rewrite Hfree, Hmk, CreateTopic_loop_spec, !seqZ_to_nat.
Qed.

(** C7 (amended). [CreateTopic] returns nil and leaves the file system and
    the topic table as they are when the topic exists or [os.Mkdir] fails:
    no error value comes back. Otherwise the directory is created and the
    table gains the topic with one partition per number from 0 below the
    requested count (none for a count of zero or less), each at offset 0,
    and a ring built from one hashed name per partition; the result is nil
    again. *)
Theorem CreateTopic_outcome fs f req :
  let t := pb.CreateTopic_GetTopic req in
  let n := pb.CreateTopic_GetPartitions req in
  (is_Some (topics f !! t) ∨ os_Mkdir fs t = None →
     CreateTopic fs f req = (fs, f, Nil)) ∧
  (∀ fs', topics f !! t = None → os_Mkdir fs t = Some fs' →
     ∃ tp, CreateTopic fs f req = (fs', {| topics := <[t := tp]> (topics f) |}, Nil)
       ∧ name tp = t
       ∧ partitions tp =
           ((λ k, {| partition_num := k; partition_topic := t;
                     partition_offset := 0 |}) <$> seqZ 0 n)
       ∧ (0 ≤ n → Z.of_nat (length (partitions tp)) = n)%Z
       ∧ hashRing tp =
           Some (hashring_New
             ((λ k, FormatUint (murmur3_Sum64 (replicate (Z.to_nat k) Byte.x00)) 2)
                <$> seqZ 0 n))).
Proof.
  intros t n. split; [apply CreateTopic_keeps|].
  intros fs' Hfree Hmk. eexists. split; [by apply CreateTopic_stores|].
  cbn [name partitions hashRing]. repeat split.
  intros Hn. rewrite length_fmap, length_seqZ. lia.
Qed.

(** One command keeps every offset at 0. *)
Lemma Apply_switch_offsets fs f c t :
  Forall (λ o, o = 0%N) (offsets f t) →
  Forall (λ o, o = 0%N) (offsets (Apply_switch fs f c).1.2 t).
Proof.
  intros Hf. unfold Apply_switch.
  destruct (pb.Operation c) as [[p|r| |]|]; try done.
  destruct (topics f !! pb.CreateTopic_GetTopic r) as [tp|] eqn:Hlk.
  - rewrite CreateTopic_keeps; [done | left; by eexists].
  - destruct (os_Mkdir fs (pb.CreateTopic_GetTopic r)) as [fs'|] eqn:Hmk.
    + rewrite (CreateTopic_stores fs f r fs' Hlk Hmk).
      unfold offsets. cbn [fst snd topics].
      destruct (decide (pb.CreateTopic_GetTopic r = t)) as [->|Hne].
      * rewrite lookup_insert_eq. cbn [partitions].
        apply Forall_forall. intros o Ho.
        apply list_elem_of_In, in_map_iff in Ho as (p & <- & Hp).
        apply list_elem_of_In, list_elem_of_fmap in Hp as (k & -> & _). done.
      * by rewrite lookup_insert_ne.
    + rewrite CreateTopic_keeps; [done | by right].
Qed.

(** No sequence of commands moves an offset away from 0. *)
Lemma run_offsets cmds : ∀ fs f t,
  Forall (λ o, o = 0%N) (offsets f t) →
  Forall (λ o, o = 0%N) (offsets (run fs f cmds).2 t).
Proof.
  induction cmds as [|c cmds IH]; intros fs f t Hf; [done|].
  cbn [run]. pose proof (Apply_switch_offsets fs f c t Hf) as Hc.
  destruct (Apply_switch fs f c) as [[fs' f'] r]. by apply IH.
Qed.

(** Nor does a log, whatever the decoder makes of its entries. *)
Lemma left_by_log_offsets ls : ∀ fs f t,
  Forall (λ o, o = 0%N) (offsets f t) →
  Forall (λ o, o = 0%N) (offsets (left_by_log fs f ls) t).
Proof.
  induction ls as [|l ls IH]; intros fs f t Hf; [done|].
  cbn [left_by_log]. unfold Apply.
  destruct (proto_Unmarshal (Data l)) as [operation [text|]]; [|done].
  destruct (negb (String.length text =? 0)%nat); [done|].
  pose proof (Apply_switch_offsets fs f operation t Hf) as Hc.
  destruct (Apply_switch fs f operation) as [[fs' f'] r]. by apply IH.
Qed.

(** What [Apply] does with an entry that the decoder reads as a
    [Publish]. *)
Lemma Apply_Publish_entry fs f l p :
  pb.Operation (proto_Unmarshal (Data l)).1 = Some (pb.Write_Publish p) →
  Apply fs f l =
    match (proto_Unmarshal (Data l)).2 with
    | None => Panics
    | Some "" => Returns (fs, f, Nil)
    | Some _ => Exits 1
    end.
Proof.
  intros Hop. unfold Apply.
  destruct (proto_Unmarshal (Data l)) as [operation [text|]]; [|done].
  cbn [fst snd] in *. destruct text; [|done].
  cbn. unfold Apply_switch. by rewrite Hop.
Qed.

(** C2 (amended). A [Publish] moves no offset and builds no error. An
    entry the decoder reads as a [Publish] leaves the state machine as it
    was, and where [Apply] returns on it, it returns nil with the state
    and the file system unchanged: the [Publish] case of its switch is
    empty, whether the topic exists or not. The [Publish] method, which
    [Apply] does not call, leaves the state as it is too: for an unknown
    topic it returns nil, for a known one it returns no value. And after
    any log, as after any commands run through the switch, every offset of
    an empty state machine's partitions is 0. *)
Theorem Publish_changes_nothing fs f l p ls cmds t :
  (pb.Operation (proto_Unmarshal (Data l)).1 = Some (pb.Write_Publish p) →
     left_by_log fs f [l] = f
     ∧ ∀ r, Apply fs f l = Returns r → r = (fs, f, Nil))
  ∧ Apply_switch fs f {| pb.Operation := Some (pb.Write_Publish p) |} = (fs, f, Nil)
  ∧ (Publish f p).1 = f
  ∧ (topics f !! pb.Publish_GetTopic p = None → (Publish f p).2 = Publish_returns Nil)
  ∧ (is_Some (topics f !! pb.Publish_GetTopic p) →
       (Publish f p).2 = Publish_panics ∨ (Publish f p).2 = Publish_no_return)
  ∧ Forall (λ o, o = 0%N) (offsets (left_by_log fs fresh ls) t)
  ∧ Forall (λ o, o = 0%N) (offsets (run fs fresh cmds).2 t).
Proof.
  assert (Hfresh : Forall (λ o, o = 0%N) (offsets fresh t)).
  { unfold offsets, fresh. cbn [topics]. by rewrite lookup_empty. }
  split; [|split; [reflexivity|]]; [|repeat split].
  - intros Hop. pose proof (Apply_Publish_entry fs f l p Hop) as Happly.
    cbn [left_by_log]. rewrite Happly.
    destruct (proto_Unmarshal (Data l)).2 as [[|c text]|];
      (split; [done|]); intros r [= <-]; done.
  - unfold Publish. destruct (topics f !! pb.Publish_GetTopic p) as [tp|]; [|done].
    by destruct (pb.Publish_GetMessages p), (hashRing tp).
  - intros Hnone. unfold Publish. by rewrite Hnone.
  - intros [tp Htp]. unfold Publish. rewrite Htp.
    destruct (pb.Publish_GetMessages p), (hashRing tp); cbn; auto.
  - by apply left_by_log_offsets.
  - by apply run_offsets.
Qed.

(** C3 (amended). [Snapshot] hands out no snapshot and no error, and
    [Restore] leaves the state machine it is called on as it is, whatever
    it is given to read. Restoring on an empty state machine therefore
    gives an empty topic table, which is the table of the snapshotted
    state machine only when that one is empty too. *)
Theorem Restore_keeps_state f g r :
  Snapshot f = (None, None)
  ∧ Restore g r = (g, None)
  ∧ topics (Restore fresh r).1 = ∅
  ∧ (topics (Restore fresh r).1 = topics f ↔ topics f = ∅).
Proof. repeat split; simpl; intros; by subst. Qed.

(** C8. An entry that decodes without error makes [Apply] panic: the
    guard calls [Error()] on the nil error before anything is
    dispatched. *)
Theorem Apply_panics_on_decoded_entry fs f l operation :
  proto_Unmarshal (Data l) = (operation, None) →
  Apply fs f l = Panics.
Proof. intros Hdec. unfold Apply. by rewrite Hdec. Qed.

(** An entry the decoder refuses with a message ends the process. *)
Lemma Apply_exits_on_decode_error fs f l operation text :
  proto_Unmarshal (Data l) = (operation, Some text) → text ≠ "" →
  Apply fs f l = Exits 1.
Proof.
  intros Hdec Htext. unfold Apply. rewrite Hdec.
  destruct text; [done|]. reflexivity.
Qed.





(** Past the guard, with a decoder of any kind: two file systems that
    answer [os.Mkdir] alike, now and after every directory made on both,
    leave the same state machine and the same ending. [alike] is any
    relation that [os.Mkdir] keeps. *)
Lemma ApplyAll_alike (alike : FileSystem → FileSystem → Prop) :
  (∀ a b n, alike a b →
     match os_Mkdir a n, os_Mkdir b n with
     | Some a', Some b' => alike a' b'
     | None, None => True
     | _, _ => False
     end) →
  ∀ ls f fs1 fs2, alike fs1 fs2 →
    left_by_log fs1 f ls = left_by_log fs2 f ls
    ∧ ending (ApplyAll fs1 f ls) = ending (ApplyAll fs2 f ls).
Proof.
  intros Hkeeps. induction ls as [|l ls IH]; intros f fs1 fs2 Hfs; [done|].
  cbn [left_by_log ApplyAll]. unfold Apply.
  destruct (proto_Unmarshal (Data l)) as [operation [text|]]; [|done].
  destruct (negb (String.length text =? 0)%nat); [done|].
  unfold Apply_switch.
  destruct (pb.Operation operation) as [[p|r| |]|]; try (by apply IH).
  unfold CreateTopic.
  destruct (topics f !! pb.CreateTopic_GetTopic r); [by apply IH|].
  pose proof (Hkeeps fs1 fs2 (pb.CreateTopic_GetTopic r) Hfs) as Hmk.
  destruct (os_Mkdir fs1 _) as [fs1'|], (os_Mkdir fs2 _) as [fs2'|];
    try done; [|by apply IH].
  destruct (CreateTopic_loop _ _ _ _ _ _). by apply IH.
Qed.


End FsmFacts.

(** * Properties of the reconciler *)

Section ClusterFacts.
Import Cluster.

(** Unfolds a handler down to the record it builds. *)
Ltac reduce := cbn -[uint64_pred time_Sub Seconds_gt_10 time_Second].

Ltac run_handler :=
  unfold onPeerUpdate, onFailedHeartbeat, ReplicatePeer, RemovePeer, Msgf, emit,
    MemberMap_Get, MemberMap_Set, MemberMap_Del, Raft_LastIndex,
    Raft_RemoveServer, Raft_Apply, mbind, mret, M_bind, M_ret;
  reduce.

(** Brings a journal to the form [old ++ new events]. *)
Ltac journal_tail := eexists; rewrite <- ?app_assoc; simpl; reflexivity.

(** [len(id) == 0] *)
Lemma String_length_0 (s : string) : (String.length s =? 0)%nat = true ↔ s = "".
Proof. destruct s; simpl; split; intros; congruence. Qed.

(** C10. A joining peer whose id is empty is ignored: the handler returns
    with the member map, the journal and so the engine untouched; no
    [AddMember] is submitted. *)
Theorem onPeerUpdate_empty_id_ignored i update :
  raft.Removed update = false →
  raft.ID (raft.Peer update) = "" →
  onPeerUpdate update i = (tt, i).
Proof.
  intros Hjoin Hid. unfold onPeerUpdate. by rewrite Hjoin, Hid.
Qed.

(** C5 (amended). The handler writes the member map first and submits the
    command afterwards, and the write stays whatever the engine answers.
    For a removed peer: the entry is deleted, then [RemoveMember] is
    submitted. For a joining peer with an id that the map does not hold:
    the entry is set, then [AddMember] is submitted. *)
Theorem onPeerUpdate_writes_map_first i update :
  let id := raft.ID (raft.Peer update) in
  let info := {| NodeId := id; IsLeader := false;
                 Address := raft.Address (raft.Peer update) |} in
  let after := (onPeerUpdate update i).2 in
  (raft.Removed update = true →
     MemberMap after = delete id (MemberMap i)
     ∧ ∃ rest, journal after =
         (journal i ++
          [Logged Info "Peer %s is removed" id; MapDel id;
           ApplyCalled {| fsmPb.Operation := fsmPb.WriteOperation_RemoveMember id;
                          fsmPb.Code := fsmPb.Operation_REMOVE_MEMBER |} time_Second]
          ++ rest)%list)
  ∧ (raft.Removed update = false → id ≠ "" → MemberMap i !! id = None →
     MemberMap after = <[id := info]> (MemberMap i)
     ∧ ∃ rest, journal after =
         (journal i ++
          [MapSet id info; Logged Info "Replicating peer %s" id;
           ApplyCalled {| fsmPb.Operation :=
                            fsmPb.WriteOperation_AddMember id
                              (raft.Address (raft.Peer update));
                          fsmPb.Code := fsmPb.Operation_ADD_MEMBER |} time_Second]
          ++ rest)%list).
Proof.
  intros id info after. subst after. split.
  - intros Hrem. run_handler. rewrite Hrem. reduce. fold id.
    destruct (Apply (Raft_ i) _ time_Second) as [[e|] resp]; reduce;
      [|destruct resp; reduce]; (split; [reflexivity | journal_tail]).
  - intros Hjoin Hid Hnew. run_handler. rewrite Hjoin. fold id.
    destruct (String.length id =? 0)%nat eqn:Hlen;
      [by apply String_length_0 in Hlen|].
    reduce. rewrite Hnew. reduce.
    destruct (Apply (Raft_ i) _ time_Second) as [[e|] resp]; reduce;
      [|destruct resp; reduce]; (split; [reflexivity | journal_tail]).
Qed.



(** A heartbeat that failed ten seconds ago or less is only logged. *)
Lemma onFailedHeartbeat_recent i now update :
  Seconds_gt_10 (time_Sub now (raft.LastContact update)) = false →
  (onFailedHeartbeat now update i).2 =
    {| Raft_ := Raft_ i; MemberMap := MemberMap i;
       journal := (journal i ++
         [Logged Warn "Peer %s cannot be connected to, last contact: %s, nodes: %s"
                 (raft.PeerID update)])%list |}.
Proof. intros Hrecent. run_handler. by rewrite Hrecent. Qed.


(** The handler does not change the engine it was given. *)
Lemma onFailedHeartbeat_Raft i now update :
  Raft_ (onFailedHeartbeat now update i).2 = Raft_ i.
Proof.
  run_handler.
  destruct (Seconds_gt_10 _); reduce; [|done].
  destruct (RemoveServer _ _ _ _); reduce; [done|].
  destruct (Apply (Raft_ i) _ time_Second) as [[e|] resp]; reduce;
    [|destruct resp; reduce]; done.
Qed.


(** A joining peer the member map holds already is only logged. *)
Lemma onPeerUpdate_known_peer i update info :
  raft.Removed update = false →
  MemberMap i !! raft.ID (raft.Peer update) = Some info →
  raft.ID (raft.Peer update) ≠ "" →
  MemberMap (onPeerUpdate update i).2 = MemberMap i
  ∧ engine_calls (journal (onPeerUpdate update i).2) = engine_calls (journal i).
Proof.
  intros Hjoin Hknown Hid. run_handler. rewrite Hjoin.
  destruct (String.length _ =? 0)%nat eqn:Hlen;
    [by apply String_length_0 in Hlen|].
  reduce. rewrite Hknown. reduce. split; [reflexivity|].
  unfold engine_calls. rewrite List.filter_app. simpl. by rewrite app_nil_r.
Qed.

(** Seeing the same peer join a second time changes the member map no
    further. *)
Lemma onPeerUpdate_join_twice i update :
  raft.Removed update = false →
  MemberMap (onPeerUpdate update (onPeerUpdate update i).2).2
  = MemberMap (onPeerUpdate update i).2.
Proof.
  intros Hjoin. run_handler. rewrite Hjoin. reduce.
  destruct (String.length _ =? 0)%nat eqn:Hlen; reduce; [done|].
  destruct (MemberMap i !! _) eqn:Hlk; reduce.
  { by rewrite ?Hlen, ?Hlk. }
  destruct (Apply (Raft_ i) _ time_Second) as [[e|] resp]; reduce;
    [|destruct resp; reduce]; rewrite ?Hlen; reduce;
    by rewrite lookup_insert_eq.
Qed.

End ClusterFacts.

(** * Properties of the membership commands *)

Section MembershipFacts.
Import Membership.

(** A filter that nothing passes. *)
Lemma filter_none {A} (P : A → Prop) `{∀ x, Decision (P x)} (l : list A) :
  Forall (λ x, ¬ P x) l → filter P l = [].
Proof.
  induction 1 as [|x l Hx _ IH]; [done|].
  by rewrite filter_cons_False.
Qed.

(** A node the map holds has exactly one entry. *)
Lemma entries_for_present (m : gmap string Cluster.MemberInfo) x v :
  m !! x = Some v → length (entries_for m x) = 1.
Proof.
  intros Hx. unfold entries_for.
  rewrite <- (map_to_list_delete m x v Hx).
  rewrite filter_cons_True by done. simpl. f_equal.
  rewrite filter_none; [done|].
  apply Forall_forall. intros [k w] Hkw%elem_of_map_to_list Heq. simpl in Heq.
  subst k. by rewrite lookup_delete_eq in Hkw.
Qed.

(** C6. Adding a member a second time changes nothing and answers with the
    result of a successful add; the map then holds exactly one entry for
    the member. Removing a member the map does not hold changes nothing and
    answers with the result of a successful removal. *)
Theorem membership_commands_idempotent m x address y :
  m !! y = None →
  let once := (AddMember m x address).1 in
  AddMember once x address = (once, AddMemberResult)
  ∧ length (entries_for (AddMember once x address).1 x) = 1
  ∧ RemoveMember m y = (m, RemoveMemberResult).
Proof.
  intros Hy once.
  assert (Hx : is_Some (once !! x)).
  { subst once. unfold AddMember. destruct (m !! x) eqn:Hm; simpl.
    - by rewrite Hm.
    - by rewrite lookup_insert_eq. }
  destruct Hx as [v Hv].
  assert (Hagain : AddMember once x address = (once, AddMemberResult)).
  { unfold AddMember at 1. by rewrite Hv. }
  split; [exact Hagain|]. split.
  - rewrite Hagain. simpl. by eapply entries_for_present.
  - unfold RemoveMember. by rewrite delete_id.
Qed.

End MembershipFacts.

(** * The state machine on concrete inputs *)

Section FsmExamples.
Import Fsm.
#[local] Existing Instance sampleExternals.


(** C2 (counterexample). The state machine holds topic ["t"] with one
    partition at offset 0. A [Publish] of one message to ["t"], run through
    the switch of [Apply], leaves the offset at 0, and one to the unknown
    topic ["u"] answers nil: no error. The [Publish] method leaves the
    offset at 0 for ["t"] and returns nil for ["u"]. And [Apply] itself, on
    an entry that decodes to the [Publish] to ["t"], panics and leaves the
    offset at 0. *)
Lemma Publish_moves_no_offset :
  let to_u := {| pb.Publish_GetTopic := "u";
                 pb.Publish_GetMessages := [{| pb.Key := "k" |}] |} in
  let to_t := {| pb.Publish_GetTopic := "t";
                 pb.Publish_GetMessages := [{| pb.Key := "k" |}] |} in
  let entry := {| Data := [Byte.x01] |} in
  offsets one_topic "t" = [0%N]
  ∧ offsets (Apply_switch with_t one_topic (publish "t" ["k"])).1.2 "t" = [0%N]
  ∧ (Apply_switch with_t one_topic (publish "u" ["k"])).2 = Nil
  ∧ offsets (Publish one_topic to_t).1 "t" = [0%N]
  ∧ Publish one_topic to_u = (one_topic, Publish_returns Nil)
  ∧ @proto_Unmarshal (decoding (publish "t" ["k"])) (Data entry) =
      (publish "t" ["k"], None)
  ∧ @Apply (decoding (publish "t" ["k"])) with_t
      (one_topic_decoding (publish "t" ["k"])) entry = Panics
  ∧ @offsets (decoding (publish "t" ["k"]))
      (@left_by_log (decoding (publish "t" ["k"])) with_t
         (one_topic_decoding (publish "t" ["k"])) [entry]) "t" = [0%N].
Proof. repeat split; vm_compute; reflexivity. Qed.

(** C3 (counterexample). A state machine that holds topic ["t"] hands out
    no snapshot, and restoring on an empty state machine leaves it without
    ["t"]. *)
Lemma Restore_loses_topic :
  is_Some (topics one_topic !! "t")
  ∧ Snapshot one_topic = (None, None)
  ∧ topics (Restore fresh []).1 !! "t" = None.
Proof. split; [by eexists|]. split; reflexivity. Qed.

(** C7 (counterexample). A second [CreateTopic("t", 3)] on a state machine
    that holds ["t"], and a first one where [os.Mkdir] fails, both return
    nil: the caller gets no error to report. *)
Lemma CreateTopic_rejects_with_nil :
  (CreateTopic with_t one_topic
     {| pb.CreateTopic_GetTopic := "t"; pb.CreateTopic_GetPartitions := 3 |}).2 = Nil
  ∧ (CreateTopic with_t fresh
     {| pb.CreateTopic_GetTopic := "t"; pb.CreateTopic_GetPartitions := 3 |})
    = (with_t, fresh, Nil).
Proof. split; vm_compute; reflexivity. Qed.

(** [CreateTopic("t", 3)] on an empty state machine in an empty
    directory: partitions 0, 1 and 2. *)
Lemma CreateTopic_outcome_witness :
  ∃ tp, CreateTopic no_entries fresh
          {| pb.CreateTopic_GetTopic := "t"; pb.CreateTopic_GetPartitions := 3 |}
        = (with_t, {| topics := <["t" := tp]> ∅ |}, Nil)
      ∧ map partition_num (partitions tp) = [0; 1; 2]%Z
      ∧ length (partitions tp) = 3.
Proof.
  destruct (CreateTopic_outcome no_entries fresh
              {| pb.CreateTopic_GetTopic := "t"; pb.CreateTopic_GetPartitions := 3 |})
    as [_ Hnew].
  destruct (Hnew with_t eq_refl eq_refl)
    as (tp & Heq & _ & Hparts & _).
  exists tp. split; [exact Heq|]. rewrite Hparts. split; reflexivity.
Defined.

(** An entry with empty [Data] decodes to the empty message, without
    error. *)
Lemma Apply_panics_on_decoded_entry_witness :
  proto_Unmarshal [] = ({| pb.Operation := None |}, None)
  ∧ Apply no_entries fresh {| Data := [] |} = Panics.
Proof.
  split; [reflexivity|].
  exact (Apply_panics_on_decoded_entry no_entries fresh {| Data := [] |}
           {| pb.Operation := None |} eq_refl).
Defined.

End FsmExamples.

(** * The reconciler and the membership commands on concrete inputs *)

Section ClusterExamples.
Import Cluster.

(** A joining peer without an id, whatever the engine would answer. *)
Lemma onPeerUpdate_empty_id_ignored_witness :
  raft.ID (raft.Peer nameless_joined) = ""
  ∧ onPeerUpdate nameless_joined (reconciler accepting) = (tt, reconciler accepting).
Proof.
  split; [reflexivity|].
  exact (onPeerUpdate_empty_id_ignored (reconciler accepting) nameless_joined
           eq_refl eq_refl).
Defined.

(** C5 (counterexample). The engine refuses every command. A peer [n2] is
    seen joining: the member map holds [n2] afterwards, written before the
    [AddMember] that failed. The peer [n1] is seen removed: the member map
    has lost [n1], deleted before the [RemoveMember] that failed. *)
Lemma onPeerUpdate_keeps_uncommitted_write :
  let info := {| NodeId := "n2"; IsLeader := false; Address := "10.0.0.2:7000" |} in
  let joined := (onPeerUpdate n2_joined (reconciler refusing)).2 in
  let removed := (onPeerUpdate n1_removed (reconciler refusing)).2 in
  MemberMap joined !! "n2" = Some info
  ∧ journal joined =
      [MapSet "n2" info;
       Logged Info "Replicating peer %s" "n2";
       ApplyCalled {| fsmPb.Operation :=
                        fsmPb.WriteOperation_AddMember "n2" "10.0.0.2:7000";
                      fsmPb.Code := fsmPb.Operation_ADD_MEMBER |} time_Second;
       Logged Error "Error replicating peer %s" "n2"]
  ∧ MemberMap removed !! "n1" = None
  ∧ journal removed =
      [Logged Info "Peer %s is removed" "n1";
       MapDel "n1";
       ApplyCalled {| fsmPb.Operation := fsmPb.WriteOperation_RemoveMember "n1";
                      fsmPb.Code := fsmPb.Operation_REMOVE_MEMBER |} time_Second;
       Logged Error "Error removing peer %s" "n1"].
Proof. repeat split; vm_compute; reflexivity. Qed.

(** [n2] joins and [n1] is removed while the engine accepts every
    command. *)
Lemma onPeerUpdate_writes_map_first_witness :
  only_n1 !! "n2" = None
  ∧ MemberMap (onPeerUpdate n2_joined (reconciler accepting)).2 =
      <["n2" := {| NodeId := "n2"; IsLeader := false;
                   Address := "10.0.0.2:7000" |}]> only_n1
  ∧ MemberMap (onPeerUpdate n1_removed (reconciler accepting)).2 =
      delete "n1" only_n1.
Proof.
  assert (Hnew : only_n1 !! "n2" = None) by reflexivity.
  assert (Hid : raft.ID (raft.Peer n2_joined) ≠ "") by discriminate.
  split; [exact Hnew|]. split.
  - exact (proj1 (proj2 (onPeerUpdate_writes_map_first (reconciler accepting) n2_joined)
                    eq_refl Hid Hnew)).
  - exact (proj1 (proj1 (onPeerUpdate_writes_map_first (reconciler accepting) n1_removed)
                    eq_refl)).
Defined.


(** [n2] added twice to a shard of [n1], and [n3] removed from it. *)
Lemma membership_commands_idempotent_witness :
  only_n1 !! "n3" = None
  ∧ Membership.RemoveMember only_n1 "n3" = (only_n1, RemoveMemberResult)
  ∧ length (Membership.entries_for
      (Membership.AddMember (Membership.AddMember only_n1 "n2" "10.0.0.2:7000").1
         "n2" "10.0.0.2:7000").1 "n2") = 1.
Proof.
  assert (Hy : only_n1 !! "n3" = None) by reflexivity.
  destruct (membership_commands_idempotent only_n1 "n2" "10.0.0.2:7000" "n3" Hy)
    as (_ & Hone & Hrem).
  split; [exact Hy|]. split; [exact Hrem | exact Hone].
Defined.

End ClusterExamples.

(** * More on the state machine: what a run of commands keeps *)

Section FsmInvariants.
Context `{Fsm.Externals}.
Import Fsm.

(** One command leaves a stored topic as it is. *)
Lemma Apply_switch_keeps_topic fs f c t tp :
  topics f !! t = Some tp → topics (Apply_switch fs f c).1.2 !! t = Some tp.
Proof.
  intros Ht. unfold Apply_switch.
  destruct (pb.Operation c) as [[p|r| |]|]; try done.
  destruct (topics f !! pb.CreateTopic_GetTopic r) as [tp'|] eqn:Hlk.
  - rewrite CreateTopic_keeps; [done | left; by eexists].
  - destruct (os_Mkdir fs (pb.CreateTopic_GetTopic r)) as [fs'|] eqn:Hmk.
    + rewrite (CreateTopic_stores fs f r fs' Hlk Hmk). cbn [fst snd topics].
      rewrite lookup_insert_ne; [done|]. intros Heq. congruence.
    + rewrite CreateTopic_keeps; [done | by right].
Qed.

(** X1. A topic, once stored, stays as it is: no sequence of commands
    changes or removes it, a [CreateTopic] of the same name with another
    partition count included. *)
Theorem run_keeps_topics cmds fs f t tp :
  topics f !! t = Some tp → topics (run fs f cmds).2 !! t = Some tp.
Proof.
  revert fs f. induction cmds as [|c cmds IH]; intros fs f Ht; [done|].
  cbn [run]. pose proof (Apply_switch_keeps_topic fs f c t tp Ht) as Hc.
  destruct (Apply_switch fs f c) as [[fs' f'] r]. by apply IH.
Qed.

Lemma Apply_switch_well_formed fs f c :
  well_formed f → well_formed (Apply_switch fs f c).1.2.
Proof.
  intros Hf. unfold Apply_switch.
  destruct (pb.Operation c) as [[p|r| |]|]; try done.
  destruct (topics f !! pb.CreateTopic_GetTopic r) as [tp'|] eqn:Hlk.
  - rewrite CreateTopic_keeps; [done | left; by eexists].
  - destruct (os_Mkdir fs (pb.CreateTopic_GetTopic r)) as [fs'|] eqn:Hmk.
    + rewrite (CreateTopic_stores fs f r fs' Hlk Hmk). cbn [fst snd].
      unfold well_formed. cbn [topics].
      apply map_Forall_insert_2; [|exact Hf].
      cbn [name partitions hashRing]. split; [done|]. split; [|by eexists].
      by rewrite length_fmap, length_seqZ, seqZ_to_nat.
    + rewrite CreateTopic_keeps; [done | by right].
Qed.

(** X2. Whatever commands an empty state machine has run, its table is
    well formed: every topic is stored under its own name, its partitions
    are numbered 0, 1, ... without a gap, each names that topic and stands
    at offset 0, and the topic has a ring. *)
Theorem run_well_formed cmds fs : well_formed (run fs fresh cmds).2.
Proof.
  assert (Hgen : ∀ cmds fs f, well_formed f → well_formed (run fs f cmds).2).
  { clear. intros cmds. induction cmds as [|c cmds IH]; intros fs f Hf; [done|].
    cbn [run]. pose proof (Apply_switch_well_formed fs f c Hf) as Hc.
    destruct (Apply_switch fs f c) as [[fs' f'] r]. by apply IH. }
  apply Hgen. unfold well_formed, fresh. cbn [topics]. apply map_Forall_empty.
Qed.

(** X4. A [CreateTopic] that follows one of the same name changes nothing,
    whatever the two partition counts are and whether the first one stored
    the topic or not. *)
Theorem CreateTopic_twice fs f req1 req2 :
  pb.CreateTopic_GetTopic req1 = pb.CreateTopic_GetTopic req2 →
  CreateTopic (CreateTopic fs f req1).1.1 (CreateTopic fs f req1).1.2 req2
  = ((CreateTopic fs f req1).1.1, (CreateTopic fs f req1).1.2, Nil).
Proof.
  intros Hname.
  destruct (topics f !! pb.CreateTopic_GetTopic req1) as [tp|] eqn:Hlk.
  - rewrite (CreateTopic_keeps fs f req1); [|left; by eexists].
    cbn [fst snd]. apply CreateTopic_keeps. left. rewrite <- Hname. by eexists.
  - destruct (os_Mkdir fs (pb.CreateTopic_GetTopic req1)) as [fs'|] eqn:Hmk.
    + rewrite (CreateTopic_stores fs f req1 fs' Hlk Hmk). cbn [fst snd].
      apply CreateTopic_keeps. left. cbn [topics].
      rewrite <- Hname, lookup_insert_eq. by eexists.
    + rewrite (CreateTopic_keeps fs f req1); [|by right].
      cbn [fst snd]. apply CreateTopic_keeps. right. by rewrite <- Hname.
Qed.

(** The switch of [Apply] answers nil to every command. *)
Lemma Apply_switch_answers_nil fs f c : (Apply_switch fs f c).2 = Nil.
Proof.
  unfold Apply_switch.
  destruct (pb.Operation c) as [[p|r| |]|]; try done.
  by destruct (CreateTopic fs f r) as [[fs' f'] v].
Qed.

(** X5. When the engine reports no error and hands back what the switch of
    [Apply] answered, the handlers of both RPCs panic: they assert a
    response type the state machine never produces. *)
Theorem rpc_panics_on_fsm_answer (r : Rpc.rpcInterface) creq preq fs f fs' f' :
  Rpc.raft_Apply r (Rpc.CreateTopic_input creq) Cluster.time_Second =
    {| Rpc.Error := None;
       Rpc.Response := Rpc.from_fsm (Apply_switch fs f (Rpc.CreateTopic_input creq)).2 |} →
  Rpc.raft_Apply r (Rpc.Publish_input preq) Cluster.time_Second =
    {| Rpc.Error := None;
       Rpc.Response := Rpc.from_fsm (Apply_switch fs' f' (Rpc.Publish_input preq)).2 |} →
  Rpc.CreateTopic r creq = Panics ∧ Rpc.PublishMessages r preq = Panics.
Proof.
  intros Hc Hp.
  unfold Rpc.CreateTopic, Rpc.CreateTopicInternal, Rpc.PublishMessages,
    Rpc.PublishMessagesInternal.
  by rewrite Hc, Hp.
Qed.

End FsmInvariants.

(** * The pairs the command line publishes *)

Section CliFacts.
Import Cli.

Lemma flatten_app arr kv :
  flatten (arr ++ [kv]) = (flatten arr ++ [Key kv; Val kv])%list.
Proof.
  unfold flatten. rewrite map_app, concat_app. simpl. by rewrite ?app_nil_r.
Qed.

(** The loop from index [i], with the pairs of the first [i] arguments
    built. *)
Lemma process_loop_from (messageStr : list string) : ∀ (fuel i : nat) arr,
  (length messageStr ≤ i + 2 * fuel)%nat → (i ≤ length messageStr)%nat →
  i = (2 * length arr)%nat → flatten arr = take i messageStr →
  ∃ arr', process_loop fuel messageStr i arr = Some (Returns arr')
    ∧ flatten arr' = take (2 * length arr') messageStr
    ∧ (length messageStr - 1 ≤ 2 * length arr' ≤ length messageStr)%nat.
Proof.
  induction fuel as [|fuel IH]; intros i arr Hfuel Hi Hlen Hflat.
  - exists arr. cbn [process_loop].
    destruct (Z.ltb_spec (Z.of_nat i) (Z.of_nat (length messageStr) - 1)); [lia|].
    split; [done|]. split; [by rewrite <- Hlen|lia].
  - cbn [process_loop].
    destruct (Z.ltb_spec (Z.of_nat i) (Z.of_nat (length messageStr) - 1)) as [Hlt|Hge].
    + destruct (lookup_lt_is_Some_2 messageStr i) as [k Hk]; [lia|].
      destruct (lookup_lt_is_Some_2 messageStr (i + 1)) as [v Hv]; [lia|].
      rewrite Hk, Hv. apply IH.
      * lia.
      * lia.
      * rewrite length_app. simpl. lia.
      * rewrite flatten_app, Hflat. cbn [Key Val].
        replace (i + 2) with (S (S i)) by lia.
        rewrite (take_S_r messageStr (S i) v) by (by replace (S i) with (i + 1) by lia).
        rewrite (take_S_r messageStr i k Hk).
        by rewrite <- app_assoc.
    + exists arr. split; [done|]. split; [by rewrite <- Hlen|lia].
Qed.

(** X6. [process] never panics on its arguments and always gets to the
    client. The pairs it sends are, read back in order, the arguments
    themselves up to an even length: all of them when their number is
    even, all but the last when it is odd (none when there is just one). *)
Theorem process_sends_pairs {Res} (p : Publisher Res) messageStr topic :
  ∃ arr,
    process_loop (length messageStr) messageStr 0 [] = Some (Returns arr)
    ∧ flatten arr = take (2 * length arr) messageStr
    ∧ (length messageStr - 1 ≤ 2 * length arr ≤ length messageStr)%nat
    ∧ process p messageStr topic =
        Some (Returns match p arr topic with
                      | inl res => (Some res, None)
                      | inr err => (None, Some err)
                      end).
Proof.
  destruct (process_loop_from messageStr (length messageStr) 0 [])
    as (arr & Hloop & Hflat & Hlen); [lia | lia | done | done |].
  exists arr. split; [exact Hloop|]. split; [exact Hflat|]. split; [exact Hlen|].
  unfold process. rewrite Hloop. by destruct (p arr topic).
Qed.

End CliFacts.

(** * More on the reconciler *)

Section ReconcilerFacts.
Import Cluster.

Ltac simplify := cbn -[uint64_pred time_Sub Seconds_gt_10 time_Second].

Ltac unfold_handler :=
  unfold onPeerUpdate, onFailedHeartbeat, ReplicatePeer, RemovePeer, Msgf, emit,
    MemberMap_Get, MemberMap_Set, MemberMap_Del, Raft_LastIndex,
    Raft_RemoveServer, Raft_Apply, mbind, mret, M_bind, M_ret;
  simplify.

(** The member map [onPeerUpdate] leaves. *)
Lemma onPeerUpdate_MemberMap i update :
  MemberMap (onPeerUpdate update i).2 =
    let id := raft.ID (raft.Peer update) in
    if raft.Removed update then delete id (MemberMap i)
    else if (String.length id =? 0)%nat then MemberMap i
    else match MemberMap i !! id with
         | Some _ => MemberMap i
         | None => <[id := {| NodeId := id; IsLeader := false;
                              Address := raft.Address (raft.Peer update) |}]>
                     (MemberMap i)
         end.
Proof.
  unfold_handler. destruct (raft.Removed update); simplify.
  - destruct (Apply (Raft_ i) _ time_Second) as [[e|] resp]; simplify;
      [|destruct resp; simplify]; reflexivity.
  - destruct (String.length _ =? 0)%nat; simplify; [done|].
    destruct (MemberMap i !! _); simplify; [done|].
    destruct (Apply (Raft_ i) _ time_Second) as [[e|] resp]; simplify;
      [|destruct resp; simplify]; reflexivity.
Qed.

(** The member map [onFailedHeartbeat] leaves. *)
Lemma onFailedHeartbeat_MemberMap i now update :
  MemberMap (onFailedHeartbeat now update i).2 =
    if Seconds_gt_10 (time_Sub now (raft.LastContact update)) then
      match RemoveServer (Raft_ i) (raft.PeerID update)
                         (uint64_pred (LastIndex (Raft_ i))) 0 with
      | Some _ => MemberMap i
      | None => delete (raft.PeerID update) (MemberMap i)
      end
    else MemberMap i.
Proof.
  unfold_handler. destruct (Seconds_gt_10 _); simplify; [|done].
  destruct (RemoveServer _ _ _ _); simplify; [done|].
  destruct (Apply (Raft_ i) _ time_Second) as [[e|] resp]; simplify;
    [|destruct resp; simplify]; reflexivity.
Qed.

(** X7. [ReplicatePeer] and [RemovePeer] submit their command once, with a
    timeout of one second, and touch nothing else. They report an error
    exactly when the engine reports one or the response is an error: a
    response that is neither an error nor the expected result, nil
    included, counts as success. *)
Theorem submit_results i update peerId :
  let add := {| fsmPb.Operation :=
                  fsmPb.WriteOperation_AddMember (raft.ID (raft.Peer update))
                                                 (raft.Address (raft.Peer update));
                fsmPb.Code := fsmPb.Operation_ADD_MEMBER |} in
  let remove := {| fsmPb.Operation := fsmPb.WriteOperation_RemoveMember peerId;
                   fsmPb.Code := fsmPb.Operation_REMOVE_MEMBER |} in
  let succeeded (res : raft.ApplyFuture) :=
    raft.Error res = None ∧ ∀ e, raft.Response res ≠ error_value e in
  ((ReplicatePeer update i).1 = None ↔ succeeded (Apply (Raft_ i) add time_Second))
  ∧ (ReplicatePeer update i).2 =
      {| Raft_ := Raft_ i; MemberMap := MemberMap i;
         journal := (journal i ++ [ApplyCalled add time_Second])%list |}
  ∧ ((RemovePeer peerId i).1 = None ↔ succeeded (Apply (Raft_ i) remove time_Second))
  ∧ (RemovePeer peerId i).2 =
      {| Raft_ := Raft_ i; MemberMap := MemberMap i;
         journal := (journal i ++ [ApplyCalled remove time_Second])%list |}.
Proof.
  intros add remove succeeded. subst succeeded. unfold_handler.
  fold add remove.
  destruct (Apply (Raft_ i) add time_Second) as [[e|] resp];
    destruct (Apply (Raft_ i) remove time_Second) as [[e'|] resp']; simplify;
    try destruct resp; try destruct resp'; simplify;
    repeat split; try done; try (intros [? ?]; congruence);
    try (intros [_ Hne]; by destruct (Hne _ eq_refl)).
Qed.

(** X8. Neither handler touches the entry of any node but the peer the
    observation names, or the engine. *)
Theorem handlers_leave_other_members i now peer_update heartbeat k :
  (k ≠ raft.ID (raft.Peer peer_update) →
     MemberMap (onPeerUpdate peer_update i).2 !! k = MemberMap i !! k)
  ∧ (k ≠ raft.PeerID heartbeat →
     MemberMap (onFailedHeartbeat now heartbeat i).2 !! k = MemberMap i !! k).
Proof.
  split; intros Hk.
  - rewrite onPeerUpdate_MemberMap. cbn zeta.
    destruct (raft.Removed peer_update); [by rewrite lookup_delete_ne|].
    destruct (String.length _ =? 0)%nat; [done|].
    destruct (MemberMap i !! raft.ID _); [done|]. by rewrite lookup_insert_ne.
  - rewrite onFailedHeartbeat_MemberMap.
    destruct (Seconds_gt_10 _); [|done].
    destruct (RemoveServer _ _ _ _); [done|]. by rewrite lookup_delete_ne.
Qed.

(** The test of [onFailedHeartbeat], on any two points in time. *)
Lemma Seconds_gt_10_Sub now last :
  Seconds_gt_10 (time_Sub now last) = true ↔ (10 * time_Second < now - last)%Z.
Proof.
  unfold Seconds_gt_10, time_Sub, time_Second. rewrite Z.ltb_lt.
  assert (H63 : (2 ^ 63 = 9223372036854775808)%Z) by reflexivity.
  rewrite H63. lia.
Qed.

(** X9. The threshold of the failure detector. When the last contact lies
    more than ten seconds back, the handler calls [RemoveServer], with the
    last log index less one as the configuration index, before it submits
    anything. At ten seconds sharp or less it neither calls [RemoveServer]
    nor submits a command, and the member map stays as it is. The reads of
    the engine, the configuration for the warning line and the last index,
    are not among the calls spoken of. *)
Theorem onFailedHeartbeat_threshold i now update :
  ((10 * time_Second < now - raft.LastContact update)%Z →
     ∃ rest, engine_calls (journal (onFailedHeartbeat now update i).2) =
       (engine_calls (journal i) ++
        RemoveServerCalled (raft.PeerID update) (uint64_pred (LastIndex (Raft_ i))) 0
        :: rest)%list)
  ∧ ((now - raft.LastContact update ≤ 10 * time_Second)%Z →
     engine_calls (journal (onFailedHeartbeat now update i).2) = engine_calls (journal i)
     ∧ MemberMap (onFailedHeartbeat now update i).2 = MemberMap i).
Proof.
  split; intros Hage.
  - apply Seconds_gt_10_Sub in Hage. unfold_handler. rewrite Hage. simplify.
    unfold engine_calls.
    destruct (RemoveServer _ _ _ _); simplify.
    + eexists. rewrite !List.filter_app. simpl. rewrite app_nil_r. reflexivity.
    + destruct (Apply (Raft_ i) _ time_Second) as [[e|] resp]; simplify;
        [|destruct resp; simplify]; eexists; rewrite !List.filter_app; simpl;
        rewrite ?app_nil_r, <- ?app_assoc; simpl; reflexivity.
  - assert (Hrecent : Seconds_gt_10 (time_Sub now (raft.LastContact update)) = false).
    { destruct (Seconds_gt_10 _) eqn:Hs; [|done].
      apply Seconds_gt_10_Sub in Hs. lia. }
    unfold_handler. rewrite Hrecent. simplify. split; [|done].
    unfold engine_calls. rewrite List.filter_app. simpl. by rewrite app_nil_r.
Qed.

(** X10. What a peer observation submits: a removal submits one
    [RemoveMember], whatever the id, empty or unknown ids included; a join
    submits one [AddMember] when the id is not empty and the map does not
    hold it, and nothing otherwise. [RemoveServer] is never called. *)
Theorem onPeerUpdate_submits i update :
  let id := raft.ID (raft.Peer update) in
  engine_calls (journal (onPeerUpdate update i).2) =
    (engine_calls (journal i) ++
     if raft.Removed update then
       [ApplyCalled {| fsmPb.Operation := fsmPb.WriteOperation_RemoveMember id;
                       fsmPb.Code := fsmPb.Operation_REMOVE_MEMBER |} time_Second]
     else if (String.length id =? 0)%nat then []
     else match MemberMap i !! id with
          | Some _ => []
          | None =>
              [ApplyCalled {| fsmPb.Operation :=
                                fsmPb.WriteOperation_AddMember id
                                  (raft.Address (raft.Peer update));
                              fsmPb.Code := fsmPb.Operation_ADD_MEMBER |} time_Second]
          end)%list.
Proof.
  intros id. unfold engine_calls. unfold_handler. fold id.
  destruct (raft.Removed update); simplify.
  - destruct (Apply (Raft_ i) _ time_Second) as [[e|] resp]; simplify;
      [|destruct resp; simplify]; rewrite !List.filter_app; simpl;
      rewrite ?app_nil_r, <- ?app_assoc; reflexivity.
  - destruct (String.length id =? 0)%nat; simplify; [by rewrite app_nil_r|].
    destruct (MemberMap i !! id); simplify.
    + rewrite List.filter_app. simpl. reflexivity.
    + destruct (Apply (Raft_ i) _ time_Second) as [[e|] resp]; simplify;
        [|destruct resp; simplify]; rewrite !List.filter_app; simpl;
        rewrite ?app_nil_r, <- ?app_assoc; reflexivity.
Qed.

(** X18. A join followed by a removal of the same peer leaves the member
    map without that peer and otherwise as it was before the two, whatever
    the engine answers and whether the join had added the peer or not. *)
Theorem onPeerUpdate_join_then_removal i joined removed :
  raft.Removed joined = false → raft.Removed removed = true →
  raft.ID (raft.Peer removed) = raft.ID (raft.Peer joined) →
  MemberMap (onPeerUpdate removed (onPeerUpdate joined i).2).2
  = delete (raft.ID (raft.Peer joined)) (MemberMap i).
Proof.
  intros Hjoin Hrem Hid. rewrite !onPeerUpdate_MemberMap. cbn zeta.
  rewrite Hjoin, Hrem, Hid.
  destruct (String.length _ =? 0)%nat; [done|].
  destruct (MemberMap i !! _); [done|]. by rewrite delete_insert_eq.
Qed.

End ReconcilerFacts.

(** * The shard: leadership, the directory and the queries *)

Section ShardFacts.
Import Cluster Shard.

(** The member map [add_server] leaves. *)
Lemma add_server_MemberMap st server :
  getMemberMap (add_server st server) =
    match getMemberMap st !! raft.ID server with
    | Some _ => getMemberMap st
    | None => <[raft.ID server := {| NodeId := raft.ID server; IsLeader := false;
                                     Address := raft.Address server |}]>
                (getMemberMap st)
    end.
Proof. unfold add_server. by destruct (getMemberMap st !! raft.ID server). Qed.

(** What [add_server] leaves alone. *)
Lemma add_server_frame st server :
  shardId (add_server st server) = shardId st
  ∧ leader (add_server st server) = leader st
  ∧ CurMemberInfo (add_server st server) = CurMemberInfo st
  ∧ Servers (add_server st server) = Servers st
  ∧ ClusterInfo (add_server st server) = ClusterInfo st
  ∧ Raft_ (rpc (add_server st server)) = Raft_ (rpc st)
  ∧ engine_calls (journal (rpc (add_server st server))) = engine_calls (journal (rpc st)).
Proof.
  unfold add_server. destruct (getMemberMap st !! raft.ID server); [done|].
  repeat split. unfold engine_calls, lift, Msgf, emit, MemberMap_Set, mbind, M_bind.
  cbn. rewrite !List.filter_app. simpl. by rewrite !app_nil_r.
Qed.

(** The loop over the configured servers: entries are only added, one per
    server id the map does not hold, none of them a leader. *)
Lemma backfill_spec servers : ∀ st,
  let st' := fold_left add_server servers st in
  getMemberMap st ⊆ getMemberMap st'
  ∧ dom (getMemberMap st') = dom (getMemberMap st) ∪ list_to_set (raft.ID <$> servers)
  ∧ (∀ k info, getMemberMap st' !! k = Some info → getMemberMap st !! k = None →
       IsLeader info = false ∧ NodeId info = k
       ∧ ∃ server, server ∈ servers ∧ raft.ID server = k
                   ∧ raft.Address server = Address info)
  ∧ (keyed_by_id (getMemberMap st) → keyed_by_id (getMemberMap st'))
  ∧ shardId st' = shardId st ∧ leader st' = leader st
  ∧ CurMemberInfo st' = CurMemberInfo st ∧ Servers st' = Servers st
  ∧ ClusterInfo st' = ClusterInfo st ∧ Raft_ (rpc st') = Raft_ (rpc st)
  ∧ engine_calls (journal (rpc st')) = engine_calls (journal (rpc st)).
Proof.
  induction servers as [|s servers IH]; intros st; cbn [fold_left].
  - cbn zeta. rewrite fmap_nil, list_to_set_nil, (right_id_L ∅ (∪)).
    repeat split; try done; congruence.
  - specialize (IH (add_server st s)). cbn zeta in *.
    destruct IH as (Hsub & Hdom & Hnew & Hkey & H1 & H2 & H3 & H4 & H5 & H6 & H7).
    destruct (add_server_frame st s) as (F1 & F2 & F3 & F4 & F5 & F6 & F7).
    pose proof (add_server_MemberMap st s) as Hmap.
    assert (Hstep : getMemberMap st ⊆ getMemberMap (add_server st s)).
    { rewrite Hmap. destruct (getMemberMap st !! raft.ID s) eqn:Hs; [done|].
      by apply insert_subseteq. }
    split; [by etrans|]. split.
    { rewrite Hdom, Hmap, fmap_cons, list_to_set_cons.
      destruct (getMemberMap st !! raft.ID s) eqn:Hs.
      - apply elem_of_dom_2 in Hs. apply set_eq. intros x.
        rewrite !elem_of_union, elem_of_singleton. split; [tauto|].
        intros [?|[->|?]]; tauto.
      - rewrite dom_insert_L. apply set_eq. intros x.
        rewrite !elem_of_union, elem_of_singleton. tauto. }
    split.
    { intros k info Hk Hnone.
      destruct (getMemberMap (add_server st s) !! k) as [info'|] eqn:Hmid.
      - assert (info' = info) as ->.
        { eapply lookup_weaken in Hmid; [|exact Hsub]. congruence. }
        rewrite Hmap in Hmid.
        destruct (getMemberMap st !! raft.ID s) eqn:Hs; [congruence|].
        apply lookup_insert_Some in Hmid as [[<- <-]|[_ Hold]]; [|congruence].
        cbn. repeat split. exists s. repeat split. apply list_elem_of_here.
      - destruct (Hnew k info Hk Hmid) as (Hl & Hid & s' & Hin & Hs' & Ha).
        repeat split; try done. exists s'. repeat split; try done.
        by apply list_elem_of_further. }
    split.
    { intros Hk0. apply Hkey. rewrite Hmap.
      destruct (getMemberMap st !! raft.ID s); [done|].
      by apply map_Forall_insert_2. }
    repeat split; congruence.
Qed.

(** X11. A leader observation always ends with the shard's leader set to
    the observed id and the node's own flag saying whether that id is its
    own; the node's id and address, the shard id and the cluster directory
    are left alone. *)
Theorem onLeaderUpdate_leader update st :
  leader (onLeaderUpdate update st) = LeaderID update
  ∧ CurMemberInfo (onLeaderUpdate update st) =
      {| NodeId := NodeId (CurMemberInfo st);
         IsLeader := bool_decide (LeaderID update = NodeId (CurMemberInfo st));
         Address := Address (CurMemberInfo st) |}
  ∧ shardId (onLeaderUpdate update st) = shardId st
  ∧ ClusterInfo (onLeaderUpdate update st) = ClusterInfo st.
Proof.
  unfold onLeaderUpdate, getMemberInfo.
  destruct (decide (LeaderID update = NodeId (CurMemberInfo st))) as [Heq|Hne].
  - rewrite bool_decide_eq_true_2 by done. done.
  - rewrite bool_decide_eq_false_2 by done.
    destruct (getMemberMap (set_leader _ false st) !! LeaderID update); [done|].
    destruct (backfill_spec (Servers (set_leader (LeaderID update) false st))
                (set_leader (LeaderID update) false st))
      as (_ & _ & _ & _ & H1 & H2 & H3 & _ & H5 & _).
    cbn zeta in *. cbn [lift leader CurMemberInfo shardId ClusterInfo].
    rewrite H1, H2, H3, H5. done.
Qed.

(** X12. A leader that is not the node itself and that the member map does
    not hold (an empty leader id included) is filled in together with the
    configuration: afterwards the map holds what it held, the configured
    servers and the leader, the leader flagged as such with the observed
    address, and every other new entry is a configured server under its own
    id, not flagged. *)
Theorem onLeaderUpdate_backfills update st :
  LeaderID update ≠ NodeId (CurMemberInfo st) →
  getMemberMap st !! LeaderID update = None →
  let after := getMemberMap (onLeaderUpdate update st) in
  after !! LeaderID update =
    Some {| NodeId := LeaderID update; IsLeader := true; Address := LeaderAddr update |}
  ∧ dom after = dom (getMemberMap st) ∪ list_to_set (raft.ID <$> Servers st)
                ∪ {[LeaderID update]}
  ∧ (∀ k info, after !! k = Some info → getMemberMap st !! k = None →
       k ≠ LeaderID update →
       IsLeader info = false ∧ NodeId info = k
       ∧ ∃ server, server ∈ Servers st ∧ raft.ID server = k
                   ∧ raft.Address server = Address info).
Proof.
  intros Hne Hnew after. subst after. unfold onLeaderUpdate, getMemberInfo.
  destruct (decide _) as [|_]; [done|].
  change (getMemberMap (set_leader (LeaderID update) false st)) with (getMemberMap st).
  rewrite Hnew.
  destruct (backfill_spec (Servers (set_leader (LeaderID update) false st))
              (set_leader (LeaderID update) false st))
    as (_ & Hdom & Hadded & _).
  cbn zeta in *.
  change (getMemberMap (set_leader (LeaderID update) false st))
    with (getMemberMap st) in *.
  change (Servers (set_leader (LeaderID update) false st)) with (Servers st) in *.
  set (filled := fold_left add_server (Servers st)
                   (set_leader (LeaderID update) false st)) in *.
  change (getMemberMap (lift (MemberMap_Set (LeaderID update)
            {| NodeId := LeaderID update; IsLeader := true;
               Address := LeaderAddr update |}) filled))
    with (<[LeaderID update := {| NodeId := LeaderID update; IsLeader := true;
                                   Address := LeaderAddr update |}]>
            (getMemberMap filled)).
  split; [by rewrite lookup_insert_eq|]. split.
  - rewrite dom_insert_L, Hdom. apply set_eq. intros x.
    rewrite !elem_of_union, elem_of_singleton. tauto.
  - intros k info Hk Hold Hkl. rewrite lookup_insert_ne in Hk by done.
    by apply Hadded.
Qed.

(** X13. A leader observation never removes or changes an entry of the
    member map, and it submits nothing to the engine: the entries it adds
    are local. When the leader is the node itself or a member the map
    holds, the map stays as it is, the leader's entry and its flag
    included. *)
Theorem onLeaderUpdate_keeps_members update st :
  getMemberMap st ⊆ getMemberMap (onLeaderUpdate update st)
  ∧ engine_calls (journal (rpc (onLeaderUpdate update st)))
    = engine_calls (journal (rpc st))
  ∧ (LeaderID update = NodeId (CurMemberInfo st)
     ∨ is_Some (getMemberMap st !! LeaderID update) →
     getMemberMap (onLeaderUpdate update st) = getMemberMap st).
Proof.
  unfold onLeaderUpdate, getMemberInfo.
  assert (Hlog : ∀ lvl format peer st0,
    engine_calls (journal (rpc (lift (Msgf lvl format peer) st0)))
    = engine_calls (journal (rpc st0))).
  { intros. unfold engine_calls. cbn. rewrite List.filter_app. simpl.
    by rewrite app_nil_r. }
  destruct (decide (LeaderID update = NodeId (CurMemberInfo st))) as [Heq|Hne].
  - split; [done|]. split; [|done].
    change (rpc (set_leader (LeaderID update) true
                   (lift (Msgf Debug "Node is already leader" "") st)))
      with (rpc (lift (Msgf Debug "Node is already leader" "") st)).
    apply Hlog.
  - change (getMemberMap (set_leader (LeaderID update) false st))
      with (getMemberMap st).
    destruct (getMemberMap st !! LeaderID update) as [info|] eqn:Hlk.
    + split; [done|]. split; [|done]. by rewrite Hlog.
    + destruct (backfill_spec (Servers (set_leader (LeaderID update) false st))
                  (set_leader (LeaderID update) false st))
        as (Hsub & Hdom & _ & _ & _ & _ & _ & _ & _ & _ & Hcalls).
      cbn zeta in *.
      set (filled := fold_left add_server
                       (Servers (set_leader (LeaderID update) false st))
                       (set_leader (LeaderID update) false st)) in *.
      change (getMemberMap (set_leader (LeaderID update) false st))
        with (getMemberMap st) in *.
      split; [|split].
      * change (getMemberMap (lift (MemberMap_Set (LeaderID update)
                  {| NodeId := LeaderID update; IsLeader := true;
                     Address := LeaderAddr update |}) filled))
          with (<[LeaderID update := {| NodeId := LeaderID update; IsLeader := true;
                                         Address := LeaderAddr update |}]>
                  (getMemberMap filled)).
        apply map_subseteq_spec. intros k info Hk.
        rewrite lookup_insert_ne by congruence.
        by eapply lookup_weaken.
      * unfold engine_calls in *. cbn. rewrite List.filter_app. simpl.
        rewrite app_nil_r. exact Hcalls.
      * intros [?|[? ?]]; congruence.
Qed.

(** Filling a Go map entry by entry gives the map of the converted
    entries. *)
Lemma ForEach_fill (m : gmap string MemberInfo) :
  map_fold (λ s info res,
              <[s := {| pb_NodeId := NodeId info; pb_Address := Address info |}]> res)
           ∅ m
  = (λ info, {| pb_NodeId := NodeId info; pb_Address := Address info |}) <$> m.
Proof.
  apply (map_fold_weak_ind (λ r m, r = _ <$> m)).
  - by rewrite fmap_empty.
  - intros k info m' r _ ->. by rewrite fmap_insert.
Qed.

(** X14. [GetShardInfo] lists exactly the members of the map, each under
    its key with its id and address (the leader flag is not reported), next
    to the shard's leader and id; [toProtoMemberMap] converts a member map
    in the same way. *)
Theorem GetShardInfo_lists_members st k :
  MemberAddressMap (GetShardInfo st) !! k =
    (λ info, {| pb_NodeId := NodeId info; pb_Address := Address info |})
      <$> getMemberMap st !! k
  ∧ dom (MemberAddressMap (GetShardInfo st)) = dom (getMemberMap st)
  ∧ toProtoMemberMap (getMemberMap st) = MemberAddressMap (GetShardInfo st)
  ∧ LeaderId (GetShardInfo st) = leader st
  ∧ ShardId (GetShardInfo st) = shardId st.
Proof.
  unfold GetShardInfo, toProtoMemberMap. cbn [MemberAddressMap LeaderId ShardId].
  rewrite ForEach_fill. split; [by rewrite lookup_fmap|].
  split; [by rewrite dom_fmap_L|]. done.
Qed.

(** X15. What [GetShardInfo] lists after an observation is handled,
    whatever the engine answers to the command: a removed peer is not
    listed; a joining peer with an id the map did not hold is listed with
    the observed address; a peer whose heartbeat failed is not listed
    either, if its last contact is more than ten seconds old and
    [RemoveServer] succeeds. *)
Theorem GetShardInfo_after_observation st now peer_update heartbeat :
  let id := raft.ID (raft.Peer peer_update) in
  let after_peer := GetShardInfo (lift (onPeerUpdate peer_update) st) in
  let after_heartbeat := GetShardInfo (lift (onFailedHeartbeat now heartbeat) st) in
  (raft.Removed peer_update = true → MemberAddressMap after_peer !! id = None)
  ∧ (raft.Removed peer_update = false → id ≠ "" → getMemberMap st !! id = None →
     MemberAddressMap after_peer !! id =
       Some {| pb_NodeId := id; pb_Address := raft.Address (raft.Peer peer_update) |})
  ∧ ((10 * time_Second < now - raft.LastContact heartbeat)%Z →
     RemoveServer (Raft_ (rpc st)) (raft.PeerID heartbeat)
                  (uint64_pred (LastIndex (Raft_ (rpc st)))) 0 = None →
     MemberAddressMap after_heartbeat !! raft.PeerID heartbeat = None).
Proof.
  intros id after_peer after_heartbeat. subst after_peer after_heartbeat.
  unfold GetShardInfo. cbn [MemberAddressMap]. rewrite !ForEach_fill.
  unfold getMemberMap, lift. cbn [rpc].
  rewrite !lookup_fmap, onPeerUpdate_MemberMap, onFailedHeartbeat_MemberMap.
  cbn zeta. fold id. repeat split.
  - intros ->. by rewrite lookup_delete_eq.
  - intros -> Hid Hnew.
    destruct (String.length id =? 0)%nat eqn:Hlen.
    { destruct id; [done | discriminate]. }
    rewrite Hnew. by rewrite lookup_insert_eq.
  - intros Hage%Seconds_gt_10_Sub Hok. rewrite Hage, Hok.
    by rewrite lookup_delete_eq.
Qed.

(** What the switch of [onRaftUpdates] leaves alone. *)
Lemma onRaftUpdates_switch_frame now observable st :
  shardId (onRaftUpdates_switch now observable st) = shardId st
  ∧ ClusterInfo (onRaftUpdates_switch now observable st) = ClusterInfo st.
Proof.
  destruct observable as [|state|update|update|update|]; try done.
  - by destruct state.
  - unfold onRaftUpdates_switch, onLeaderUpdate.
    destruct (decide _); [done|].
    destruct (getMemberMap _ !! _); [done|].
    destruct (backfill_spec (Servers (set_leader (LeaderID update) false st))
                (set_leader (LeaderID update) false st))
      as (_ & _ & _ & _ & H1 & _ & _ & _ & H5 & _).
    cbn zeta in *. cbn [lift shardId ClusterInfo]. by rewrite H1, H5.
Qed.

Lemma handle_all_frame events : ∀ st,
  shardId (handle_all events st) = shardId st
  ∧ ClusterInfo (handle_all events st) = ClusterInfo st.
Proof.
  unfold handle_all.
  induction events as [|[now observable] events IH]; intros st; [done|].
  cbn [fold_left]. destruct (IH (onRaftUpdates_switch now observable st)) as [H1 H2].
  destruct (onRaftUpdates_switch_frame now observable st) as [H3 H4].
  cbn [fst snd]. split; congruence.
Qed.

(** X16. Whatever observations a node has handled since
    [InitClusterState], [GetClusterInfo] reports exactly one shard, its
    own, and reports for it what [GetShardInfo] reports: the directory
    follows every change of the member map and of the leader. *)
Theorem GetClusterInfo_follows_shard engine servers nodeName address shard events :
  let st := handle_all events (InitClusterState engine servers nodeName address shard) in
  GetClusterInfo st = {[ shard := GetShardInfo st ]}.
Proof.
  intros st.
  destruct (handle_all_frame events
              (InitClusterState engine servers nodeName address shard)) as [Hid Hdir].
  fold st in Hid, Hdir. cbn [InitClusterState shardId ClusterInfo] in Hid, Hdir.
  unfold GetClusterInfo. rewrite Hdir.
  rewrite insert_empty, map_fold_singleton, insert_empty.
  cbn [deref ShardInfo_MemberMap ShardInfo_leader ShardInfo_shardId].
  unfold GetShardInfo, toProtoMemberMap, getLeader, getShardId. by rewrite Hid.
Qed.

(** One observation keeps every entry under its own id. *)
Lemma onRaftUpdates_switch_keyed now observable st :
  keyed_by_id (getMemberMap st) →
  keyed_by_id (getMemberMap (onRaftUpdates_switch now observable st)).
Proof.
  intros Hk. destruct observable as [|state|update|update|update|]; try done.
  - by destruct state.
  - unfold onRaftUpdates_switch, getMemberMap, lift. cbn [rpc].
    rewrite onPeerUpdate_MemberMap. cbn zeta.
    destruct (raft.Removed update); [by apply map_Forall_delete|].
    destruct (String.length _ =? 0)%nat; [done|].
    destruct (MemberMap (rpc st) !! _); [done|].
    by apply map_Forall_insert_2.
  - unfold onRaftUpdates_switch, onLeaderUpdate.
    destruct (decide _); [done|].
    change (getMemberMap (set_leader (LeaderID update) false st))
      with (getMemberMap st).
    destruct (getMemberMap st !! _); [done|].
    destruct (backfill_spec (Servers (set_leader (LeaderID update) false st))
                (set_leader (LeaderID update) false st))
      as (_ & _ & _ & Hkeyed & _).
    cbn zeta in Hkeyed. apply Hkeyed in Hk.
    unfold getMemberMap, lift in *. cbn [rpc MemberMap_Set snd MemberMap].
    by apply map_Forall_insert_2.
  - unfold onRaftUpdates_switch, getMemberMap, lift. cbn [rpc].
    rewrite onFailedHeartbeat_MemberMap.
    destruct (Seconds_gt_10 _); [|done].
    destruct (RemoveServer _ _ _ _); [done|]. by apply map_Forall_delete.
Qed.

(** X17. Whatever observations a node has handled since
    [InitClusterState], every entry of its member map is stored under the
    node id it carries, so [GetShardInfo] never lists a member under
    another node's id. *)
Theorem members_keyed_by_id engine servers nodeName address shard events :
  keyed_by_id
    (getMemberMap (handle_all events
                     (InitClusterState engine servers nodeName address shard))).
Proof.
  assert (Hgen : ∀ events st, keyed_by_id (getMemberMap st) →
                              keyed_by_id (getMemberMap (handle_all events st))).
  { clear. unfold handle_all.
    induction events as [|[now observable] events IH]; intros st Hk; [done|].
    cbn [fold_left]. apply IH. by apply onRaftUpdates_switch_keyed. }
  apply Hgen. unfold InitClusterState, getMemberMap. cbn [rpc MemberMap].
  apply map_Forall_insert_2; [done | apply map_Forall_empty].
Qed.

End ShardFacts.

(** * The additions on concrete inputs *)

Section MoreExamples.
Import Fsm.
#[local] Existing Instance sampleExternals.

(** Topic ["t"] with one partition survives a [CreateTopic("t", 5)]. *)
Lemma run_keeps_topics_witness :
  ∃ tp, topics one_topic !! "t" = Some tp
    ∧ length (partitions tp) = 1
    ∧ topics (run with_t one_topic [create "t" 5; create "u" 2]).2 !! "t" = Some tp.
Proof.
  eexists. split; [vm_compute; reflexivity|]. split; [reflexivity|].
  apply (run_keeps_topics [create "t" 5; create "u" 2] with_t one_topic "t").
  vm_compute. reflexivity.
Defined.

(** [CreateTopic("t", 2)] then [CreateTopic("t", 7)] in an empty
    directory. *)
Lemma CreateTopic_twice_witness :
  let first := {| pb.CreateTopic_GetTopic := "t"; pb.CreateTopic_GetPartitions := 2 |} in
  let second := {| pb.CreateTopic_GetTopic := "t"; pb.CreateTopic_GetPartitions := 7 |} in
  CreateTopic (CreateTopic no_entries fresh first).1.1
              (CreateTopic no_entries fresh first).1.2 second
  = ((CreateTopic no_entries fresh first).1.1,
     (CreateTopic no_entries fresh first).1.2, Nil).
Proof.
  intros first second.
  exact (CreateTopic_twice no_entries fresh first second eq_refl).
Defined.

(** Both RPCs against an engine that answers with the state machine's
    nil. *)
Lemma rpc_panics_on_fsm_answer_witness :
  Rpc.CreateTopic serving
    {| Rpc.CreateTopicRequest_GetTopic := "t";
       Rpc.CreateTopicRequest_GetNumPartitions := 3 |} = Panics
  ∧ Rpc.PublishMessages serving
      {| Rpc.PublishMessageRequest_GetTopic := "t";
         Rpc.PublishMessageRequest_GetMessages := [{| pb.Key := "k" |}] |} = Panics.
Proof.
  exact (rpc_panics_on_fsm_answer serving _ _ no_entries fresh no_entries fresh
           eq_refl eq_refl).
Defined.

End MoreExamples.

Section MoreClusterExamples.
Import Cluster Shard.

(** [n2] joins a shard of [n1]: the entry of [n1] is not touched; nor is
    it when a heartbeat to [n3] fails. *)
Lemma handlers_leave_other_members_witness :
  MemberMap (onPeerUpdate n2_joined (reconciler accepting)).2 !! "n1" = Some member_n1
  ∧ MemberMap (onFailedHeartbeat second_111
                 {| raft.PeerID := "n3"; raft.LastContact := 100 * time_Second |}
                 (reconciler accepting)).2 !! "n1" = Some member_n1.
Proof.
  destruct (handlers_leave_other_members (reconciler accepting) second_111 n2_joined
              {| raft.PeerID := "n3"; raft.LastContact := 100 * time_Second |} "n1")
    as [Hpeer Hbeat].
  split.
  - rewrite Hpeer; [reflexivity | discriminate].
  - rewrite Hbeat; [reflexivity | discriminate].
Defined.

(** Ten seconds sharp, and one nanosecond more. *)
Lemma onFailedHeartbeat_threshold_witness :
  engine_calls (journal (onFailedHeartbeat (110 * time_Second) n1_silent
                           (reconciler accepting)).2) = []
  ∧ ∃ rest, engine_calls (journal (onFailedHeartbeat (110 * time_Second + 1) n1_silent
                                     (reconciler accepting)).2)
            = RemoveServerCalled "n1" 6 0 :: rest.
Proof.
  split.
  - exact (proj1 (proj2 (onFailedHeartbeat_threshold (reconciler accepting)
                           (110 * time_Second) n1_silent) ltac:(vm_compute; discriminate))).
  - exact (proj1 (onFailedHeartbeat_threshold (reconciler accepting)
                    (110 * time_Second + 1) n1_silent) ltac:(reflexivity)).
Defined.

(** [n1] learns that [n3] leads: [n2] and [n3] are filled in. *)
Lemma onLeaderUpdate_backfills_witness :
  getMemberMap (onLeaderUpdate n3_leads shard_of_n1) !! "n3" =
    Some {| NodeId := "n3"; IsLeader := true; Address := "10.0.0.3:7000" |}
  ∧ dom (getMemberMap (onLeaderUpdate n3_leads shard_of_n1))
    = dom (getMemberMap shard_of_n1) ∪ list_to_set ["n1"; "n2"; "n3"] ∪ {["n3"]}.
Proof.
  assert (Hne : LeaderID n3_leads ≠ NodeId (CurMemberInfo shard_of_n1)) by discriminate.
  assert (Hnew : getMemberMap shard_of_n1 !! LeaderID n3_leads = None) by reflexivity.
  destruct (onLeaderUpdate_backfills n3_leads shard_of_n1 Hne Hnew) as (Hl & Hd & _).
  split; [exact Hl | exact Hd].
Defined.

(** [n1] seen removed, [n2] seen joining, and a heartbeat to [n1] that
    failed eleven seconds after the last contact. *)
Lemma GetShardInfo_after_observation_witness :
  MemberAddressMap (GetShardInfo (lift (onPeerUpdate n1_removed) shard_of_n1)) !! "n1" = None
  ∧ MemberAddressMap (GetShardInfo (lift (onPeerUpdate n2_joined) shard_of_n1)) !! "n2"
    = Some {| pb_NodeId := "n2"; pb_Address := "10.0.0.2:7000" |}
  ∧ MemberAddressMap
      (GetShardInfo (lift (onFailedHeartbeat second_111 n1_silent) shard_of_n1)) !! "n1"
    = None.
Proof.
  split; [|split].
  - exact (proj1 (GetShardInfo_after_observation shard_of_n1 second_111 n1_removed
                    n1_silent) eq_refl).
  - exact (proj1 (proj2 (GetShardInfo_after_observation shard_of_n1 second_111 n2_joined
                           n1_silent))
             eq_refl ltac:(discriminate) eq_refl).
  - exact (proj2 (proj2 (GetShardInfo_after_observation shard_of_n1 second_111 n1_removed
                           n1_silent))
             ltac:(reflexivity) eq_refl).
Defined.

(** [n2] joins and is removed again while the engine refuses both
    commands. *)
Lemma onPeerUpdate_join_then_removal_witness :
  MemberMap (onPeerUpdate
               {| raft.Removed := true; raft.Peer := raft.Peer n2_joined |}
               (onPeerUpdate n2_joined (reconciler refusing)).2).2
  = delete "n2" only_n1.
Proof.
  exact (onPeerUpdate_join_then_removal (reconciler refusing) n2_joined
           {| raft.Removed := true; raft.Peer := raft.Peer n2_joined |}
           eq_refl eq_refl eq_refl).
Defined.

End MoreClusterExamples.
